(** * nf-core/tools: the local cache of a git-hosted module registry

    A shallow embedding of [nf_core/modules/modules_repo.py].  The
    class [ModulesRepo] keeps one clone of a remote registry under a
    per-user cache directory, resolves and checks out a branch, lists
    the components of the working copy, installs a component at a
    pinned commit and compares installed files with the upstream ones.

    Python values are modelled as the code has them: [str] as [string],
    [dict] and [set] as stdpp's [gmap] and [gset], exceptions as a
    result type that is threaded, with the process state and the disk,
    through a state-and-exception monad.  The version-control engine
    (GitPython) and the helpers of [nf_core.utils] are not part of the
    module: they enter as the fields of a record [engine]. *)

From stdpp Require Import gmap strings list fin_maps.
From Stdlib Require Import ZArith Ascii String.

Local Open Scope string_scope.
Local Open Scope list_scope.

(** ** Python strings and paths *)

Module Py.

Definition nl : ascii := "010"%char.
Definition tab : ascii := "009"%char.
Definition slash : ascii := "/"%char.
Definition dot : ascii := "."%char.

(** [s.split(sep)] for a one-character separator: never empty. *)
Fixpoint split (sep : ascii) (s : string) : list string :=
  match s with
  | EmptyString => [EmptyString]
  | String c s' =>
      if Ascii.eqb c sep then EmptyString :: split sep s'
      else match split sep s' with
           | [] => [String c EmptyString]
           | w :: ws => String c w :: ws
           end
  end.

(** [s.partition(sep)[0]]: the text before the first separator. *)
Definition partition_head (sep : ascii) (s : string) : string :=
  hd "" (split sep s).

(** [s.rfind(c)], with [None] for Python's -1. *)
Fixpoint rfind (c : ascii) (s : string) : option nat :=
  match s with
  | EmptyString => None
  | String a s' =>
      match rfind c s' with
      | Some i => Some (S i)
      | None => if Ascii.eqb a c then Some 0 else None
      end
  end.

Fixpoint ends_with (c : ascii) (s : string) : bool :=
  match s with
  | EmptyString => false
  | String a EmptyString => Ascii.eqb a c
  | String _ s' => ends_with c s'
  end.

(** [os.path.join(a, b)] of posixpath. *)
Definition os_path_join (a b : string) : string :=
  if String.prefix "/" b then b
  else if String.eqb a "" || ends_with slash a then a +:+ b
  else a +:+ "/" +:+ b.

(** The components of a path; empty ones (doubled or trailing
    separators) are dropped as [normpath] does.  No [..] is
    resolved. *)
Definition components (p : string) : list string :=
  filter (λ s, s ≠ "") (split slash p).

Fixpoint common_prefix (l1 l2 : list string) : list string :=
  match l1, l2 with
  | x :: l1', y :: l2' =>
      if String.eqb x y then x :: common_prefix l1' l2' else []
  | _, _ => []
  end.

(** [os.path.relpath(path, start=start)] of posixpath, on paths that
    are both absolute or both relative to the same directory. *)
Definition os_path_relpath (path start : string) : string :=
  let start_list := components start in
  let path_list := components path in
  let i := List.length (common_prefix start_list path_list) in
  match (replicate (List.length start_list - i) ".." ++ drop i path_list)%list with
  | [] => "."
  | x :: xs => foldl os_path_join x xs
  end.

(** [os.path.dirname] and [os.path.basename], on components. *)
Definition dir_components (p : string) : list string :=
  removelast (components p).

Definition basename (p : string) : string :=
  List.last (components p) "".

(** [a] names [b] or a directory above it. *)
Definition is_under (b a : string) : bool :=
  bool_decide (components a `prefix_of` components b).

(** [pathlib.PurePosixPath(p).name]: the last part, where parts that
    are empty or a single dot do not count. *)
Definition Path_name (p : string) : string :=
  List.last (filter (λ s, s ≠ "" ∧ s ≠ ".") (split slash p)) "".

(** [pathlib.PurePosixPath(p).stem]: the name without its last
    suffix, [name[:i]] for [i = name.rfind('.')] when
    [0 < i < len(name) - 1]. *)
Definition Path_stem (p : string) : string :=
  let name := Path_name p in
  match rfind dot name with
  | Some i =>
      if (0 <? i)%nat && (i <? String.length name - 1)%nat
      then String.substring 0 i name else name
  | None => name
  end.

End Py.

(** ** Exceptions *)

Inductive exn :=
  | GitCommandError
  | InvalidGitRepositoryError
  | LookupError (msg : string)
  | UserWarning (msg : string)
  | FileNotFoundError (path : string)
  | FileExistsError (path : string)
  | NotADirectoryError (path : string)
  | IndexError
  | ValueError
  | TypeError
  | StopIteration
  | UnboundLocalError
  | EOFError.

Inductive result (A : Type) :=
  | Ok (a : A)
  | Raise (e : exn).
Arguments Ok {A} a.
Arguments Raise {A} e.

Global Instance exn_eq_dec : EqDecision exn.
Proof. solve_decision. Defined.

(** ** The disk and the version-control engine *)

(** A regular file, as [os.stat] and [open().read()] see it. *)
Record file := { st_mtime : Z; data : string }.

Global Instance file_eq_dec : EqDecision file.
Proof. solve_decision. Defined.

Inductive stat :=
  | S_IFREG (f : file)
  | S_IFDIR.

(** A commit: its identifier, its message, the paths (relative to the
    root of the repository) of the files it changed, which a
    path-limited history walk matches against, and the files of its
    tree as a checkout lays them out. *)
Record commit := {
  hexsha : string;
  message : string;
  touched : list string;
  tree : gmap string file }.

(** A local clone.  [revs] maps every name that [git checkout] accepts
    (branches and commit hashes) to the history reachable from it,
    newest first; [HEAD] is the name checked out; [refs] lists the
    references with the target of the symbolic ones; [tracking] maps a
    branch to the name of its remote tracking branch. *)
Record repo := {
  revs : gmap string (list commit);
  HEAD : string;
  refs : list (string * option string);
  tracking : gmap string string }.

Definition set_HEAD (ref : string) (r : repo) : repo :=
  {| revs := revs r; HEAD := ref; refs := refs r; tracking := tracking r |}.

Definition worktree (r : repo) : gmap string file :=
  match revs r !! HEAD r with
  | Some (c :: _) => tree c
  | _ => ∅
  end.

(** What sits at a directory of the cache. *)
Inductive cache_dir :=
  | NotARepo
  | Clone (r : repo).

(** The calls made to the engine and to the terminal, in order. *)
Inductive event :=
  | EvCloneFrom (url to_path : string) (ok : bool)
  | EvFetch (path : string) (ok : bool)
  | EvCheckout (path ref : string)
  | EvRefs (path : string)
  | EvMerge (path name : string)
  | EvConfirm (answer : bool)
  | EvRmtree (path : string)
  | EvCopytree (src dst : string).

Inductive level := DEBUG | INFO | ERROR.

(** The state of the process and of the disk.  [local_repo_statuses]
    and [no_pull_global] are the class attributes of [ModulesRepo];
    [cache] holds the directories under the cache root, by path;
    [project] holds every other file, by path. *)
Record world := {
  local_repo_statuses : gmap string bool;
  no_pull_global : bool;
  cache : gmap string cache_dir;
  project : gmap string file;
  logged : list (level * string);
  trace : list event }.

Definition set_statuses (s : gmap string bool) (w : world) : world :=
  {| local_repo_statuses := s; no_pull_global := no_pull_global w;
     cache := cache w; project := project w; logged := logged w;
     trace := trace w |}.

Definition set_no_pull (b : bool) (w : world) : world :=
  {| local_repo_statuses := local_repo_statuses w; no_pull_global := b;
     cache := cache w; project := project w; logged := logged w;
     trace := trace w |}.

Definition set_cache (c : gmap string cache_dir) (w : world) : world :=
  {| local_repo_statuses := local_repo_statuses w;
     no_pull_global := no_pull_global w;
     cache := c; project := project w; logged := logged w;
     trace := trace w |}.

Definition set_project (p : gmap string file) (w : world) : world :=
  {| local_repo_statuses := local_repo_statuses w;
     no_pull_global := no_pull_global w;
     cache := cache w; project := p; logged := logged w;
     trace := trace w |}.

Definition add_log (l : level) (msg : string) (w : world) : world :=
  {| local_repo_statuses := local_repo_statuses w;
     no_pull_global := no_pull_global w;
     cache := cache w; project := project w;
     logged := logged w ++ [(l, msg)]; trace := trace w |}.

Definition add_event (e : event) (w : world) : world :=
  {| local_repo_statuses := local_repo_statuses w;
     no_pull_global := no_pull_global w;
     cache := cache w; project := project w; logged := logged w;
     trace := trace w ++ [e] |}.

(** The engine and the helpers of [nf_core.utils] and
    [nf_core.modules.modules_utils], which the module imports:
    - [NFCORE_DIR], the cache root;
    - [repo_full_name_from_remote], from a remote URL to the name of
      the registry;
    - [load_tools_config], from the files of a directory to the name of
      its configuration file and the mapping read from it;
    - [clone_from], the clone that [git.Repo.clone_from] leaves for a
      URL, [None] when it raises [GitCommandError];
    - [origin_fetch], a clone after [remotes.origin.fetch()];
    - [git_merge], a clone after [git.merge(name)];
    - [ls_remote], the output of [git ls-remote] for a URL. *)
Record engine := {
  NFCORE_DIR : string;
  repo_full_name_from_remote : string → string;
  load_tools_config : gmap string file → string * gmap string string;
  clone_from : string → option repo;
  origin_fetch : repo → option repo;
  git_merge : repo → string → option repo;
  ls_remote : string → option string }.

(** ** The monad: state, and exceptions that keep the state *)

Definition M (A : Type) : Type := world → result A * world.

Global Instance M_ret : MRet M := λ A a w, (Ok a, w).

Global Instance M_bind : MBind M := λ A B f c w,
  match c w with
  | (Ok a, w') => f a w'
  | (Raise e, w') => (Raise e, w')
  end.

Definition raise {A} (e : exn) : M A := λ w, (Raise e, w).

Definition gets {A} (f : world → A) : M A := λ w, (Ok (f w), w).

Definition modify (f : world → world) : M unit := λ w, (Ok tt, f w).

(** [try: body except <handles>: handler] *)
Definition try_except {A} (body : M A) (handles : exn → bool)
    (handler : exn → M A) : M A := λ w,
  match body w with
  | (Raise e, w') => if handles e then handler e w' else (Raise e, w')
  | done => done
  end.


Definition log_ (l : level) (msg : string) : M unit := modify (add_log l msg).

Definition emit (e : event) : M unit := modify (add_event e).

Definition pass : M unit := mret tt.

(** ** The disk as the code reads it *)

(** The files below a directory of the cache, by absolute path: the
    working tree of the clone that lives there. *)
Definition clone_entries (path : string) (c : cache_dir) : list (string * file) :=
  match c with
  | Clone r => prod_map (Py.os_path_join path) id <$> map_to_list (worktree r)
  | NotARepo => []
  end.

Definition disk (w : world) : list (string * file) :=
  (map_to_list (project w) ++
   (map_to_list (cache w) ≫= λ '(path, c), clone_entries path c))%list.

(** [os.stat(path)]: a regular file, a directory (a path with a file
    below it, or a directory of the cache) or nothing. *)
Definition stat_path (w : world) (path : string) : option stat :=
  match List.find (λ '(p, _), bool_decide (Py.components p = Py.components path)) (disk w) with
  | Some (_, f) => Some (S_IFREG f)
  | None =>
      if existsb (λ '(p, _), Py.is_under p path) (disk w)
         || bool_decide (is_Some (cache w !! path))
      then Some S_IFDIR else None
  end.


Definition os_path_exists (path : string) : M bool :=
  gets (λ w, bool_decide (is_Some (stat_path w path))).

(** The paths of the files below [top]. *)
Definition files_below (w : world) (top : string) : list string :=
  filter (λ p, Py.is_under p top = true ∧
               (List.length (Py.components top) < List.length (Py.components p))%nat)
         (fst <$> disk w).

(** [os.listdir(path)]: the names directly inside a directory, and the
    administrative directory of a clone. *)
Definition os_listdir (path : string) : M (list string) := λ w,
  match stat_path w path with
  | Some S_IFDIR =>
      (Ok (remove_dups
             ((match cache w !! path with Some (Clone _) => [".git"] | _ => [] end) ++
              ((λ p, nth (List.length (Py.components path)) (Py.components p) "")
                 <$> files_below w path))%list), w)
  | Some (S_IFREG _) => (Raise (NotADirectoryError path), w)
  | None => (Raise (FileNotFoundError path), w)
  end.

(** [os.walk(top)], reduced to the pairs [(dirpath, filenames)]: one
    for [top] and for every directory below it, [dirpath] built as
    [os.walk] builds it, by joining names onto [top].  The order is the
    order of the file system, which nothing in the module relies on. *)
Definition os_walk (top : string) : M (list (string * list string)) := gets (λ w,
  let n := List.length (Py.components top) in
  let inside := files_below w top in
  let subdirs :=
    remove_dups (inside ≫= λ p,
      (λ k, take k (drop n (Py.dir_components p)))
        <$> seq 0 (S (List.length (Py.dir_components p) - n))) in
  (λ sub, (foldl Py.os_path_join top sub,
           Py.basename <$>
             filter (λ p, Py.dir_components p = (Py.components top ++ sub)%list) inside))
    <$> subdirs).

(** [shutil.copytree(src, dst)]: the destination must not exist.  The
    copy is taken as a whole, a copy broken off half-way is not
    modelled. *)
Definition shutil_copytree (src dst : string) : M unit := λ w,
  let w := add_event (EvCopytree src dst) w in
  match stat_path w src with
  | None => (Raise (FileNotFoundError src), w)
  | Some (S_IFREG _) => (Raise (NotADirectoryError src), w)
  | Some S_IFDIR =>
      match stat_path w dst with
      | Some _ => (Raise (FileExistsError dst), w)
      | None =>
          let n := List.length (Py.components src) in
          let copied :=
            omap (λ '(p, f),
                    if Py.is_under p src && (n <? List.length (Py.components p))%nat
                    then Some (foldl Py.os_path_join dst (drop n (Py.components p)), f)
                    else None)
                 (disk w) in
          (Ok tt, set_project (list_to_map copied ∪ project w) w)
      end
  end.



(** ** Calls to the engine on the clone at a path *)

(** [git.Repo(path)] *)
Definition git_Repo (path : string) : M repo := λ w,
  match cache w !! path with
  | Some (Clone r) => (Ok r, w)
  | _ => (Raise InvalidGitRepositoryError, w)
  end.

(** A git command run in a directory that holds no repository fails. *)
Definition the_repo (path : string) : M repo := λ w,
  match cache w !! path with
  | Some (Clone r) => (Ok r, w)
  | _ => (Raise GitCommandError, w)
  end.

Definition put_repo (path : string) (r : repo) : M unit :=
  modify (λ w, set_cache (<[path := Clone r]> (cache w)) w).

(** [repo.git.checkout(ref)] *)
Definition git_checkout (path ref : string) : M unit :=
  emit (EvCheckout path ref);;
  r ← the_repo path;
  if bool_decide (is_Some (revs r !! ref))
  then put_repo path (set_HEAD ref r)
  else raise GitCommandError.

(** [repo.iter_commits(max_count=depth, paths=path)]: the commits of
    the history of [HEAD] that touch [path], at most [depth] of them
    when a depth is given. *)
Definition touches (path : string) (c : commit) : bool :=
  existsb (λ p, Py.is_under p path) (touched c).

Definition cap {A} (depth : option nat) (l : list A) : list A :=
  match depth with
  | Some d => take d l
  | None => l
  end.

Definition history (r : repo) : list commit :=
  default [] (revs r !! HEAD r).

Definition iter_commits (path : string) (depth : option nat)
    (paths : option string) : M (list commit) :=
  r ← the_repo path;
  mret (cap depth (match paths with
                   | Some p => List.filter (touches p) (history r)
                   | None => history r
                   end)).

(** ** The class [ModulesRepo] *)

Definition NF_CORE_MODULES_NAME : string := "nf-core".
Definition NF_CORE_MODULES_REMOTE : string := "https://github.com/nf-core/modules.git".
Definition NF_CORE_MODULES_DEFAULT_BRANCH : string := "master".

(** The attributes of an instance.  An attribute that [__init__] has
    not assigned yet holds the empty string. *)
Record ModulesRepo := {
  remote_url : string;
  fullname : string;
  local_repo_dir : string;
  branch : string;
  repo_path : string;
  modules_dir : string;
  subworkflows_dir : string }.

Definition set_local_repo_dir (d : string) (self : ModulesRepo) : ModulesRepo :=
  {| remote_url := remote_url self; fullname := fullname self;
     local_repo_dir := d; branch := branch self; repo_path := repo_path self;
     modules_dir := modules_dir self; subworkflows_dir := subworkflows_dir self |}.

Definition set_branch (b : string) (self : ModulesRepo) : ModulesRepo :=
  {| remote_url := remote_url self; fullname := fullname self;
     local_repo_dir := local_repo_dir self; branch := b;
     repo_path := repo_path self;
     modules_dir := modules_dir self; subworkflows_dir := subworkflows_dir self |}.

Definition set_repo_path (p : string) (self : ModulesRepo) : ModulesRepo :=
  {| remote_url := remote_url self; fullname := fullname self;
     local_repo_dir := local_repo_dir self; branch := branch self;
     repo_path := p;
     modules_dir := modules_dir self; subworkflows_dir := subworkflows_dir self |}.

Definition set_dirs (m s : string) (self : ModulesRepo) : ModulesRepo :=
  {| remote_url := remote_url self; fullname := fullname self;
     local_repo_dir := local_repo_dir self; branch := branch self;
     repo_path := repo_path self;
     modules_dir := m; subworkflows_dir := s |}.

(** A commit as [get_component_git_log] reports it. *)
Record commit_record := { git_sha : string; trunc_message : string }.

Definition is_engine_error (e : exn) : bool :=
  match e with
  | GitCommandError | InvalidGitRepositoryError => true
  | _ => false
  end.

Definition is_GitCommandError (e : exn) : bool :=
  match e with GitCommandError => true | _ => false end.


Section ModulesRepo.

Context (E : engine).

(** *** Static methods *)

Definition local_repo_synced (repo_name : string) : M bool :=
  gets (λ w, default false (local_repo_statuses w !! repo_name)).

Definition update_local_repo_status (repo_name : string) (up_to_date : bool) : M unit :=
  modify (λ w, set_statuses (<[repo_name := up_to_date]> (local_repo_statuses w)) w).

(** The body of the loop of [get_remote_branches]. *)
Definition branches_step (branches : gmap string string) (branch_info : string)
    : result (gmap string string) :=
  match Py.split Py.tab branch_info with
  | [sha; name] =>
      Ok (if String.eqb name "HEAD" then branches
          else <[sha := Py.Path_stem name]> branches)
  | _ => Raise ValueError
  end.

Fixpoint branches_loop (lines : list string) (branches : gmap string string)
    : result (gmap string string) :=
  match lines with
  | [] => Ok branches
  | branch_info :: lines' =>
      match branches_step branches branch_info with
      | Ok branches' => branches_loop lines' branches'
      | Raise e => Raise e
      end
  end.

Definition get_remote_branches (remote_url : string) : result (gset string) :=
  match ls_remote E remote_url with
  | None =>
      Raise (LookupError ("Was unable to fetch branches from '" +:+ remote_url +:+ "'"))
  | Some unparsed_branches =>
      match branches_loop (Py.split Py.nl unparsed_branches) ∅ with
      | Ok branches => Ok (list_to_set (snd <$> map_to_list branches))
      | Raise e => Raise e
      end
  end.

(** *** Branches *)

Definition checkout_branch (self : ModulesRepo) : M unit :=
  git_checkout (local_repo_dir self) (branch self).

Definition checkout (self : ModulesRepo) (commit : string) : M unit :=
  git_checkout (local_repo_dir self) commit.

Definition branch_exists (self : ModulesRepo) : M unit :=
  try_except (checkout_branch self) is_GitCommandError (λ _,
    raise (LookupError ("Branch '" +:+ branch self +:+ "' not found in '"
                        +:+ remote_url self +:+ "'"))).

(** The first reference named origin/HEAD, then the second of the
    two parts of the name of its target; a target with more or
    fewer parts cannot be unpacked. *)
Definition get_default_branch (self : ModulesRepo) : M string :=
  emit (EvRefs (local_repo_dir self));;
  r ← the_repo (local_repo_dir self);
  match List.find (λ '(name, _), String.eqb name "origin/HEAD") (refs r) with
  | None => raise StopIteration
  | Some (_, None) => raise TypeError
  | Some (_, Some target) =>
      match Py.split Py.slash target with
      | [_; b] => mret b
      | _ => raise ValueError
      end
  end.

Definition setup_branch (self : ModulesRepo) (branch_arg : option string) : M ModulesRepo :=
  self ← match branch_arg with
         | None =>
             if String.eqb (remote_url self) NF_CORE_MODULES_REMOTE
             then mret (set_branch "master" self)
             else b ← get_default_branch self; mret (set_branch b self)
         | Some b => mret (set_branch b self)
         end;
  branch_exists self;;
  mret self.

Definition verify_branch (self : ModulesRepo) : M unit :=
  dir_names ← os_listdir (local_repo_dir self);
  if bool_decide ("modules" ∉ dir_names) then
    let err_str := "Repository '" +:+ remote_url self +:+ "' (" +:+ branch self
                   +:+ ") does not contain the 'modules/' directory" in
    let err_str :=
      if bool_decide ("software" ∈ dir_names)
      then err_str +:+ "." +:+ String Py.nl
             "As of nf-core/tools version 2.0, the 'software/' directory should be renamed to 'modules/'"
      else err_str in
    raise (LookupError err_str)
  else pass.

(** *** The local clone *)

Definition clone_step (self : ModulesRepo) (remote : string) : M unit :=
  try_except
    (match clone_from E remote with
     | Some r =>
         emit (EvCloneFrom remote (local_repo_dir self) true);;
         put_repo (local_repo_dir self) r;;
         update_local_repo_status (fullname self) true
     | None =>
         emit (EvCloneFrom remote (local_repo_dir self) false);;
         raise GitCommandError
     end)
    is_GitCommandError
    (λ _, raise (LookupError ("Failed to clone from the remote: `" +:+ remote +:+ "`"))).

Definition fetch_step (self : ModulesRepo) (r : repo) : M unit :=
  match origin_fetch E r with
  | Some r' =>
      emit (EvFetch (local_repo_dir self) true);;
      put_repo (local_repo_dir self) r'
  | None =>
      emit (EvFetch (local_repo_dir self) false);;
      raise GitCommandError
  end.

Definition merge_step (self : ModulesRepo) (name : string) : M unit :=
  emit (EvMerge (local_repo_dir self) name);;
  r ← the_repo (local_repo_dir self);
  match git_merge E r name with
  | Some r' => put_repo (local_repo_dir self) r'
  | None => raise GitCommandError
  end.

(** The directory exists: mark the registry as synced when pulling is
    switched off, and fetch unless it is marked. *)
Definition sync_existing (self : ModulesRepo) (r : repo) : M unit :=
  no_pull ← gets no_pull_global;
  (if (no_pull : bool) then update_local_repo_status (fullname self) true else pass);;
  synced ← local_repo_synced (fullname self);
  if negb synced then
    fetch_step self r;;
    update_local_repo_status (fullname self) true
  else pass.

(** The directory exists: open the clone, bring it up to date and
    verify the branch. *)
Definition open_existing (self : ModulesRepo) (branch_arg : option string)
    : M ModulesRepo :=
  r ← git_Repo (local_repo_dir self);
  sync_existing self r;;
  setup_branch self branch_arg.

(** Then merge the remote tracking branch of the active branch. *)
Definition merge_tracking (self : ModulesRepo) : M ModulesRepo :=
  r ← the_repo (local_repo_dir self);
  match tracking r !! HEAD r with
  | None =>
      raise (LookupError ("There is no remote tracking branch '" +:+ branch self
                          +:+ "' in '" +:+ remote_url self +:+ "'"))
  | Some tracking_branch =>
      merge_step self tracking_branch;;
      mret self
  end.

(** The body of the [try] of [setup_local_repo]. *)
Definition setup_local_repo_body (self : ModulesRepo) (remote : string)
    (branch_arg : option string) : M ModulesRepo :=
  present ← os_path_exists (local_repo_dir self);
  if negb present then
    clone_step self remote;;
    setup_branch self branch_arg
  else
    self ← open_existing self branch_arg;
    merge_tracking self.

(** [setup_local_repo], without the progress bar.  [replies] holds
    the answers the user will give to [rich.prompt.Confirm.ask]; the
    text of the caught exception is left out of the logged line. *)
Fixpoint setup_local_repo (replies : list bool) (self : ModulesRepo) (remote : string)
    (branch_arg : option string) : M ModulesRepo :=
  let self := set_local_repo_dir (Py.os_path_join (NFCORE_DIR E) (fullname self)) self in
  try_except (setup_local_repo_body self remote branch_arg) is_engine_error (λ _,
    log_ ERROR "[red]Could not set up local cache of modules repository:[/]";;
    match replies with
    | [] => raise EOFError
    | true :: replies' =>
        emit (EvConfirm true);;
        log_ INFO ("Removing '" +:+ local_repo_dir self +:+ "'");;
        emit (EvRmtree (local_repo_dir self));;
        modify (λ w, set_cache (delete (local_repo_dir self) (cache w)) w);;
        setup_local_repo replies' self remote branch_arg
    | false :: _ =>
        emit (EvConfirm false);;
        raise (LookupError "Exiting due to error with local modules git repo")
    end).

(** *** Construction *)

Definition truthy (s : string) : bool := negb (String.eqb s "").

Definition clone_files (path : string) : M (gmap string file) :=
  gets (λ w, match cache w !! path with
             | Some (Clone r) => worktree r
             | _ => ∅
             end).

(** [__init__], without [hide_progress], which only reaches the
    progress bar.  First the instance once [remote_url] and [fullname]
    are assigned. *)
Definition new_instance (url : string) : ModulesRepo :=
  {| remote_url := url;
     fullname := repo_full_name_from_remote E url;
     local_repo_dir := ""; branch := ""; repo_path := "";
     modules_dir := ""; subworkflows_dir := "" |}.

Definition __init__ (replies : list bool) (remote_url_arg branch_arg : option string)
    (no_pull : bool) : M ModulesRepo :=
  modify (λ w, set_no_pull (no_pull_global w || no_pull) w);;
  let url := default NF_CORE_MODULES_REMOTE remote_url_arg in
  self ← setup_local_repo replies (new_instance url) url branch_arg;
  files ← clone_files (local_repo_dir self);
  let '(config_fn, repo_config) := load_tools_config E files in
  match repo_config !! "org_path" with
  | None => raise (UserWarning ("'org_path' key not present in " +:+ config_fn))
  | Some org_path =>
      let self := set_repo_path org_path self in
      (if negb (String.eqb (repo_path self) NF_CORE_MODULES_NAME) || truthy (branch self)
       then verify_branch self else pass);;
      mret (set_dirs
              (Py.os_path_join (Py.os_path_join (local_repo_dir self) "modules") (repo_path self))
              (Py.os_path_join (Py.os_path_join (local_repo_dir self) "subworkflows") (repo_path self))
              self)
  end.

(** *** Components *)

Definition get_avail_components (self : ModulesRepo) (component_type : string)
    (with_checkout : bool) : M (list string) :=
  (if with_checkout then checkout_branch self else pass);;
  directory ← (if String.eqb component_type "modules" then mret (modules_dir self)
               else if String.eqb component_type "subworkflows"
                    then mret (subworkflows_dir self)
                    else raise UnboundLocalError);
  walked ← os_walk directory;
  mret ((λ entry, Py.os_path_relpath entry.1 directory)
          <$> filter (λ entry, "main.nf" ∈ entry.2) walked).

Definition component_exists (self : ModulesRepo) (component_name component_type : string)
    (with_checkout : bool) : M bool :=
  names ← get_avail_components self component_type with_checkout;
  mret (bool_decide (component_name ∈ names)).

Definition get_component_dir (self : ModulesRepo) (component_name component_type : string)
    : option string :=
  if String.eqb component_type "modules"
  then Some (Py.os_path_join (modules_dir self) component_name)
  else if String.eqb component_type "subworkflows"
       then Some (Py.os_path_join (subworkflows_dir self) component_name)
       else None.

(** [s[:-1]] *)
Definition but_last (s : string) : string :=
  String.substring 0 (String.length s - 1) s.

(** [install_component].  The destination [Path(install_dir,
    component_name)] is joined as [os.path.join] joins. *)
Definition install_component (self : ModulesRepo)
    (component_name install_dir commit component_type : string) : M bool :=
  checked_out ← try_except (checkout self commit;; mret true)
                           is_GitCommandError (λ _, mret false);
  if negb checked_out then mret false else
  found ← component_exists self component_name component_type false;
  if negb found then
    log_ ERROR ("The requested " +:+ but_last component_type
                +:+ " does not exists in the branch '" +:+ branch self
                +:+ "' of " +:+ remote_url self +:+ "'");;
    mret false
  else
    match get_component_dir self component_name component_type with
    | Some src => shutil_copytree src (Py.os_path_join install_dir component_name)
    | None => raise TypeError
    end;;
    checkout_branch self;;
    mret true.




(** *** Versions *)

(** The dictionary built for a commit: its hash under [git_sha] and
    the first line of its message under [trunc_message]. *)
Definition to_record (c : commit) : commit_record :=
  {| git_sha := hexsha c; trunc_message := Py.partition_head Py.nl (message c) |}.

Definition get_component_git_log (self : ModulesRepo)
    (component_name component_type : string) (depth : option nat)
    : M (list commit_record) :=
  checkout_branch self;;
  let component_path :=
    Py.os_path_join (Py.os_path_join component_type (repo_path self)) component_name in
  commits_new ← iter_commits (local_repo_dir self) depth (Some component_path);
  let commits_new := to_record <$> commits_new in
  commits_old ← (if String.eqb component_type "modules" then
                   let component_path := Py.os_path_join "modules" component_name in
                   commits_old ← iter_commits (local_repo_dir self) depth
                                   (Some component_path);
                   mret (to_record <$> commits_old)
                 else mret []);
  mret (commits_new ++ commits_old)%list.

Definition get_latest_component_version (self : ModulesRepo)
    (component_name component_type : string) : M string :=
  commits ← get_component_git_log self component_name component_type (Some 1%nat);
  match commits with
  | [] => raise IndexError
  | c :: _ => mret (git_sha c)
  end.

End ModulesRepo.

(** ** Observations used in the statements *)

(** The ref that is checked out in the clone at [path]. *)
Definition active_ref (path : string) (w : world) : option string :=
  match cache w !! path with
  | Some (Clone r) => Some (HEAD r)
  | _ => None
  end.

(** [local_repo_synced], read off a state. *)
Definition synced (repo_name : string) (w : world) : bool :=
  default false (local_repo_statuses w !! repo_name).

(** The world after a successful [git checkout ref] in the clone [r]
    at [path]. *)
Definition checked_out (path ref : string) (r : repo) (w : world) : world :=
  set_cache (<[path := Clone (set_HEAD ref r)]> (cache w))
            (add_event (EvCheckout path ref) w).

Definition is_sync_event (path : string) (e : event) : bool :=
  match e with
  | EvCloneFrom _ p true | EvFetch p true => String.eqb p path
  | _ => false
  end.

Definition is_fetch (e : event) : bool :=
  match e with EvFetch _ _ => true | _ => false end.


(** The path of a component under the current layout and under the
    superseded one, as [get_component_git_log] builds them. *)
Definition current_path (self : ModulesRepo) (component_type component_name : string)
    : string :=
  Py.os_path_join (Py.os_path_join component_type (repo_path self)) component_name.

Definition legacy_path (component_name : string) : string :=
  Py.os_path_join "modules" component_name.





(** The message of [verify_branch] and the hint it appends. *)
Definition missing_modules_message (self : ModulesRepo) : string :=
  "Repository '" +:+ remote_url self +:+ "' (" +:+ branch self
  +:+ ") does not contain the 'modules/' directory".

Definition rename_hint : string :=
  "." +:+ String Py.nl
    "As of nf-core/tools version 2.0, the 'software/' directory should be renamed to 'modules/'".

(** Calls that go over the network, and calls that only read the
    clone or move its [HEAD]. *)
Definition is_network (e : event) : bool :=
  match e with
  | EvCloneFrom _ _ _ | EvFetch _ _ => true
  | _ => false
  end.

Definition is_lookup (e : event) : bool :=
  match e with
  | EvRefs _ | EvCheckout _ _ => true
  | _ => false
  end.

(** A run from [w] to [w'] that leaves the class attributes alone and
    makes only calls that satisfy [P]. *)
Definition quiet (P : event → bool) (w w' : world) : Prop :=
  local_repo_statuses w' = local_repo_statuses w
  ∧ no_pull_global w' = no_pull_global w
  ∧ ∃ evs, trace w' = (trace w ++ evs)%list ∧ Forall (λ e, P e = true) evs.

(** What a run from [w] to [w'] does to the status of the registry
    [name], cached at [path]: the flag that switches pulling off is
    left alone; no status is ever reset; once the registry is marked,
    nothing is fetched; a clone or a fetch that succeeds marks it; and
    a registry that becomes marked has been cloned or fetched, unless
    pulling is switched off. *)
Definition sync_run (name path : string) (w w' : world) : Prop :=
  no_pull_global w' = no_pull_global w
  ∧ ∃ evs, trace w' = (trace w ++ evs)%list
    ∧ (∀ n, synced n w = true → synced n w' = true)
    ∧ (synced name w = true → Forall (λ e, is_fetch e = false) evs)
    ∧ (Exists (λ e, is_sync_event path e = true) evs → synced name w' = true)
    ∧ (synced name w = false → synced name w' = true →
       Exists (λ e, is_sync_event path e = true) evs ∨ no_pull_global w = true).

(** A computation all of whose runs are quiet. *)
Definition quietly {A} (P : event → bool) (c : M A) : Prop :=
  ∀ w res w', c w = (res, w') → quiet P w w'.

(** A computation all of whose runs are sync runs. *)
Definition syncs {A} (name path : string) (c : M A) : Prop :=
  ∀ w res w', c w = (res, w') → sync_run name path w w'.

(** ** A sample registry *)

Module Sample.

Definition mk (t : Z) (d : string) : file := {| st_mtime := t; data := d |}.

(** The first commit has the module under the superseded layout,
    the second one moves it under the current layout. *)
Definition c_old : commit :=
  {| hexsha := "1111111";
     message := "add fastqc" +:+ String Py.nl "first version";
     touched := ["modules/fastqc/main.nf"; ".nf-core.yml"];
     tree := list_to_map [("modules/fastqc/main.nf", mk 10 "process OLD");
                          (".nf-core.yml", mk 10 "nf-core")] |}.

Definition c_new : commit :=
  {| hexsha := "2222222";
     message := "move fastqc under nf-core";
     touched := ["modules/fastqc/main.nf"; "modules/nf-core/fastqc/main.nf";
                 "modules/nf-core/fastqc/meta.yml"];
     tree := list_to_map [("modules/nf-core/fastqc/main.nf", mk 20 "process NEW");
                          ("modules/nf-core/fastqc/meta.yml", mk 20 "name: fastqc");
                          (".nf-core.yml", mk 10 "nf-core")] |}.

Definition registry : repo :=
  {| revs := list_to_map [("master", [c_new; c_old]);
                          ("2222222", [c_new; c_old]);
                          ("1111111", [c_old])];
     HEAD := "master";
     refs := [("origin/HEAD", Some "origin/master"); ("origin/master", None)];
     tracking := {[ "master" := "origin/master" ]} |}.

(** A registry of another organisation, with [main] as its default
    branch. *)
Definition c_acme : commit :=
  {| hexsha := "aaaaaaa";
     message := "add tool";
     touched := ["modules/acme/tool/main.nf"; ".nf-core.yml"];
     tree := list_to_map [("modules/acme/tool/main.nf", mk 30 "process TOOL");
                          (".nf-core.yml", mk 30 "acme")] |}.

Definition acme_url : string := "https://example.org/acme/registry.git".

Definition acme : repo :=
  {| revs := list_to_map [("main", [c_acme]); ("aaaaaaa", [c_acme])];
     HEAD := "main";
     refs := [("origin/main", None); ("origin/HEAD", Some "origin/main")];
     tracking := {[ "main" := "origin/main" ]} |}.

(** A clone of the canonical registry from before the rename of
    [software/] to [modules/]. *)
Definition c_legacy : commit :=
  {| hexsha := "0000000";
     message := "software layout";
     touched := ["software/fastqc/main.nf"; ".nf-core.yml"];
     tree := list_to_map [("software/fastqc/main.nf", mk 5 "process");
                          (".nf-core.yml", mk 5 "nf-core")] |}.

Definition legacy : repo :=
  {| revs := list_to_map [("master", [c_legacy])];
     HEAD := "master";
     refs := [("origin/HEAD", Some "origin/master")];
     tracking := {[ "master" := "origin/master" ]} |}.

Definition ls_remote_output : string :=
  "2222222" +:+ String Py.tab "HEAD" +:+ String Py.nl
  "2222222" +:+ String Py.tab "refs/heads/master" +:+ String Py.nl
  "2222222" +:+ String Py.tab "refs/heads/feature/x" +:+ String Py.nl
  "1111111" +:+ String Py.tab "refs/heads/release.1".

(** The configuration file of the sample holds the [org_path] and
    nothing else. *)
Definition E : engine :=
  {| NFCORE_DIR := "/cache";
     repo_full_name_from_remote := λ url,
       if String.eqb url NF_CORE_MODULES_REMOTE then "nf-core/modules" else "acme/registry";
     load_tools_config := λ files,
       (".nf-core.yml",
        match files !! ".nf-core.yml" with
        | Some f => {[ "org_path" := data f ]}
        | None => ∅
        end);
     clone_from := λ url,
       if String.eqb url NF_CORE_MODULES_REMOTE then Some registry
       else if String.eqb url acme_url then Some acme else None;
     origin_fetch := λ r, Some r;
     git_merge := λ r _, Some r;
     ls_remote := λ url,
       if String.eqb url NF_CORE_MODULES_REMOTE then Some ls_remote_output else None |}.

Definition dir : string := "/cache/nf-core/modules".

(** A process that has just started, with an empty cache. *)
Definition fresh : world :=
  {| local_repo_statuses := ∅; no_pull_global := false; cache := ∅;
     project := ∅; logged := []; trace := [] |}.

(** A process that has just started, with the canonical registry in
    the cache from an earlier run. *)
Definition cached : world :=
  {| local_repo_statuses := ∅; no_pull_global := false;
     cache := {[ dir := Clone registry ]};
     project := ∅; logged := []; trace := [] |}.

Definition cached_legacy : world :=
  {| local_repo_statuses := ∅; no_pull_global := false;
     cache := {[ dir := Clone legacy ]};
     project := ∅; logged := []; trace := [] |}.

(** The handle that [__init__] returns for the canonical registry. *)
Definition self : ModulesRepo :=
  {| remote_url := NF_CORE_MODULES_REMOTE;
     fullname := "nf-core/modules";
     local_repo_dir := dir;
     branch := "master";
     repo_path := "nf-core";
     modules_dir := "/cache/nf-core/modules/modules/nf-core";
     subworkflows_dir := "/cache/nf-core/modules/subworkflows/nf-core" |}.

(** A pipeline with an edited copy of the module: [main.nf] has the
    size and the modification time of the upstream file and another
    content, [meta.yml] is missing. *)
Definition pipeline : world :=
  {| local_repo_statuses := {[ "nf-core/modules" := true ]};
     no_pull_global := false;
     cache := {[ dir := Clone registry ]};
     project := {[ "/proj/modules/nf-core/fastqc/main.nf" := mk 20 "process MOD" ]};
     logged := []; trace := [] |}.

(** The state after [__init__] has cloned the canonical registry
    into the empty cache. *)
Definition cloned : world :=
  {| local_repo_statuses := {[ "nf-core/modules" := true ]};
     no_pull_global := false;
     cache := {[ dir := Clone registry ]};
     project := ∅; logged := [];
     trace := [EvCloneFrom NF_CORE_MODULES_REMOTE dir true; EvCheckout dir "master"] |}.




(** The other registry once [setup_local_repo] has cloned it: the
    instance, with its later attributes still unassigned, and the
    state. *)
Definition acme_dir : string := "/cache/acme/registry".

Definition acme_self : ModulesRepo :=
  {| remote_url := acme_url;
     fullname := "acme/registry";
     local_repo_dir := acme_dir;
     branch := "main";
     repo_path := ""; modules_dir := ""; subworkflows_dir := "" |}.

Definition acme_cloned : world :=
  {| local_repo_statuses := {[ "acme/registry" := true ]};
     no_pull_global := false;
     cache := {[ acme_dir := Clone acme ]};
     project := ∅; logged := [];
     trace := [EvCloneFrom acme_url acme_dir true; EvRefs acme_dir;
               EvCheckout acme_dir "main"] |}.

End Sample.

(** ** The methods that look commits up *)

Section Commits.

(** The date of a commit, [str(commit.committed_datetime.date())], is
    kept by the engine. *)
Context (committed_date : commit → string).

Definition sha_exists_on_branch (self : ModulesRepo) (sha : string) : M bool :=
  checkout_branch self;;
  commits ← iter_commits (local_repo_dir self) None None;
  mret (bool_decide (sha ∈ hexsha <$> commits)).

Definition get_commit_info (self : ModulesRepo) (sha : string) : M (string * string) :=
  checkout_branch self;;
  commits ← iter_commits (local_repo_dir self) None None;
  match List.find (λ c, String.eqb (hexsha c) sha) commits with
  | Some c => mret (Py.partition_head Py.nl (message c), committed_date c)
  | None =>
      raise (LookupError ("Commit '" +:+ sha +:+ "' not found in the '"
                          +:+ remote_url self +:+ "'"))
  end.

Definition verify_sha (self : ModulesRepo) (prompt : bool) (sha : option string) : M bool :=
  if prompt && bool_decide (sha ≠ None) then
    log_ ERROR "Cannot use '--sha' and '--prompt' at the same time!";;
    mret false
  else
    match sha with
    | Some s =>
        if truthy s then
          on_branch ← sha_exists_on_branch self s;
          if negb on_branch then
            log_ ERROR ("Commit SHA '" +:+ s +:+ "' doesn't exist in '"
                        +:+ remote_url self +:+ "'");;
            mret false
          else mret true
        else mret true
    | None => mret true
    end.

End Commits.

(** ** Further observations *)

(** The world after [checkout_branch] on the clone [r] of [self]. *)
Definition at_tip (self : ModulesRepo) (r : repo) (w : world) : world :=
  checked_out (local_repo_dir self) (branch self) r w.

Definition is_rmtree (e : event) : bool :=
  match e with EvRmtree _ => true | _ => false end.

(** A run from [w] to [w'] that removes no directory of the cache. *)
Definition keeps_cache (w w' : world) : Prop :=
  (∀ path, is_Some (cache w !! path) → is_Some (cache w' !! path))
  ∧ ∃ evs, trace w' = (trace w ++ evs)%list ∧ Forall (λ e, is_rmtree e = false) evs.

Definition keeping_cache {A} (c : M A) : Prop :=
  ∀ w res w', c w = (res, w') → keeps_cache w w'.

(** The instance that [setup_local_repo] returns for [self] once the
    branch [b] is resolved. *)
Definition set_up (E : engine) (b : string) (self : ModulesRepo) : ModulesRepo :=
  set_branch b (set_local_repo_dir (Py.os_path_join (NFCORE_DIR E) (fullname self)) self).

(** ** Further sample data *)

Module More.

Definition committed_date (c : commit) : string :=
  if String.eqb (hexsha c) "2222222" then "2022-11-02" else "2022-03-15".

(** A cache directory that holds no repository. *)
Definition broken : world :=
  {| local_repo_statuses := ∅; no_pull_global := false;
     cache := {[ Sample.dir := NotARepo ]};
     project := ∅; logged := []; trace := [] |}.

(** A remote whose default branch has a slash in its name. *)
Definition slashed_url : string := "https://example.org/acme/slashed.git".

Definition slashed : repo :=
  {| revs := list_to_map [("feature/x", [Sample.c_acme])];
     HEAD := "feature/x";
     refs := [("origin/HEAD", Some "origin/feature/x")];
     tracking := ∅ |}.

Definition E : engine :=
  {| NFCORE_DIR := "/cache";
     repo_full_name_from_remote := repo_full_name_from_remote Sample.E;
     load_tools_config := load_tools_config Sample.E;
     clone_from := λ url,
       if String.eqb url slashed_url then Some slashed else clone_from Sample.E url;
     origin_fetch := λ r, None;
     git_merge := git_merge Sample.E;
     ls_remote := λ url, if String.eqb url slashed_url then Some "" else None |}.

(** No network: nothing can be cloned or fetched. *)
Definition offline : engine :=
  {| NFCORE_DIR := "/cache";
     repo_full_name_from_remote := repo_full_name_from_remote Sample.E;
     load_tools_config := load_tools_config Sample.E;
     clone_from := λ url, None;
     origin_fetch := λ r, None;
     git_merge := git_merge Sample.E;
     ls_remote := λ url, None |}.

End More.

(** ** Characters of a name *)

Fixpoint has_char (c : ascii) (s : string) : bool :=
  match s with
  | EmptyString => false
  | String a s' => Ascii.eqb a c || has_char c s'
  end.

(** ** Worlds of the set-up *)

(** The world after [git.Repo.clone_from] left the clone [r] in
    [path] and the registry [name] was marked. *)
Definition after_clone (remote path name : string) (r : repo) (w : world) : world :=
  set_statuses (<[name := true]> (local_repo_statuses w))
    (set_cache (<[path := Clone r]> (cache w))
       (add_event (EvCloneFrom remote path true) w)).

(** The world after the user agreed to delete the cache directory
    [path]. *)
Definition after_removal (path : string) (w : world) : world :=
  set_cache (delete path (cache w))
    (add_event (EvRmtree path)
       (add_log INFO ("Removing '" +:+ path +:+ "'")
          (add_event (EvConfirm true)
             (add_log ERROR "[red]Could not set up local cache of modules repository:[/]" w)))).

(** * Properties *)

(** ** The model at work *)

Example split_tabs : Py.split Py.tab (String "a" (String Py.tab "b")) = ["a"; "b"].
Proof. reflexivity. Qed.

Example split_empty : Py.split Py.slash "" = [""].
Proof. reflexivity. Qed.

Example join_plain : Py.os_path_join "modules" "fastqc" = "modules/fastqc".
Proof. reflexivity. Qed.

Example join_absolute : Py.os_path_join "modules" "/tmp/x" = "/tmp/x".
Proof. reflexivity. Qed.

Example relpath_nested :
  Py.os_path_relpath "/c/modules/nf-core/bwa/mem" "/c/modules/nf-core" = "bwa/mem".
Proof. reflexivity. Qed.

Example relpath_same : Py.os_path_relpath "/c/modules" "/c/modules/" = ".".
Proof. reflexivity. Qed.

Example stem_branch : Py.Path_stem "refs/heads/feature/x" = "x".
Proof. reflexivity. Qed.

Example stem_dotted : Py.Path_stem "refs/heads/release.1" = "release".
Proof. reflexivity. Qed.

Example stem_hidden : Py.Path_stem "refs/heads/.hidden" = ".hidden".
Proof. reflexivity. Qed.

Example sample_init :
  (__init__ Sample.E [] None None false Sample.fresh).1 = Ok Sample.self.
Proof. vm_compute. reflexivity. Qed.

Example sample_avail :
  (get_avail_components Sample.self "modules" true Sample.cached).1 = Ok ["fastqc"].
Proof. vm_compute. reflexivity. Qed.

Example sample_default_branch :
  (__init__ Sample.E [] (Some Sample.acme_url) None false Sample.fresh).1
    = Ok (set_dirs "/cache/acme/registry/modules/acme"
                   "/cache/acme/registry/subworkflows/acme"
                   (set_repo_path "acme" Sample.acme_self)).
Proof. vm_compute. reflexivity. Qed.

Example sample_branches :
  get_remote_branches Sample.E NF_CORE_MODULES_REMOTE = Ok {[ "x"; "release" ]}.
Proof. vm_compute. reflexivity. Qed.

(** ** The monad and the engine calls *)

Lemma bind_ok {A B} (c : M A) (f : A → M B) w a w' :
  c w = (Ok a, w') → (c ≫= f) w = f a w'.
Proof. intros H. unfold mbind, M_bind. by rewrite H. Qed.

Lemma bind_raise {A B} (c : M A) (f : A → M B) w e w' :
  c w = (Raise e, w') → (c ≫= f) w = (Raise e, w').
Proof. intros H. unfold mbind, M_bind. by rewrite H. Qed.

Lemma bind_inv {A B} (c : M A) (f : A → M B) w res w' :
  (c ≫= f) w = (res, w') →
  (∃ a w1, c w = (Ok a, w1) ∧ f a w1 = (res, w')) ∨
  (∃ e, c w = (Raise e, w') ∧ res = Raise e).
Proof.
  unfold mbind, M_bind. destruct (c w) as [[a|e] w1]; intros H.
  - left. eauto.
  - right. inversion H; subst. eauto.
Qed.

Lemma try_except_inv {A} (body : M A) handles handler w res w' :
  try_except body handles handler w = (res, w') →
  (∃ a, body w = (Ok a, w') ∧ res = Ok a) ∨
  (∃ e, body w = (Raise e, w') ∧ handles e = false ∧ res = Raise e) ∨
  (∃ e w1, body w = (Raise e, w1) ∧ handles e = true ∧ handler e w1 = (res, w')).
Proof.
  unfold try_except. destruct (body w) as [[a|e] w1]; intros H.
  - left. inversion H; subst. eauto.
  - destruct (handles e) eqn:He.
    + right; right. eauto.
    + right; left. inversion H; subst. eauto.
Qed.

Lemma try_except_ok {A} (body : M A) handles handler w a w' :
  body w = (Ok a, w') → try_except body handles handler w = (Ok a, w').
Proof. intros H. unfold try_except. by rewrite H. Qed.

Lemma try_except_caught {A} (body : M A) handles handler w e w' out :
  body w = (Raise e, w') → handles e = true → handler e w' = out →
  try_except body handles handler w = out.
Proof. intros H He <-. unfold try_except. by rewrite H, He. Qed.

Lemma try_except_passed {A} (body : M A) handles handler w e w' :
  body w = (Raise e, w') → handles e = false →
  try_except body handles handler w = (Raise e, w').
Proof. intros H He. unfold try_except. by rewrite H, He. Qed.

Lemma git_checkout_ok path ref r w :
  cache w !! path = Some (Clone r) →
  is_Some (revs r !! ref) →
  git_checkout path ref w = (Ok tt, checked_out path ref r w).
Proof.
  intros Hc Hr. unfold git_checkout, emit, modify, the_repo, put_repo, mbind, M_bind.
  cbn. rewrite Hc. by rewrite bool_decide_eq_true_2.
Qed.

Lemma git_checkout_unknown path ref r w :
  cache w !! path = Some (Clone r) →
  revs r !! ref = None →
  git_checkout path ref w = (Raise GitCommandError, add_event (EvCheckout path ref) w).
Proof.
  intros Hc Hr. unfold git_checkout, emit, modify, the_repo, put_repo, raise, mbind, M_bind.
  cbn. rewrite Hc. rewrite bool_decide_eq_false_2; [done|].
  rewrite Hr. by intros [? ?].
Qed.

Lemma git_checkout_inv path ref w res w' :
  git_checkout path ref w = (res, w') →
  (∃ r, cache w !! path = Some (Clone r) ∧ is_Some (revs r !! ref)
        ∧ res = Ok tt ∧ w' = checked_out path ref r w)
  ∨ res = Raise GitCommandError.
Proof.
  destruct (cache w !! path) as [[|r]|] eqn:Hc.
  1,3: unfold git_checkout, emit, modify, the_repo, put_repo, raise, mbind, M_bind;
       cbn; rewrite Hc; intros [= <- _]; by right.
  destruct (revs r !! ref) as [hist|] eqn:Hr.
  - rewrite (git_checkout_ok _ _ _ _ Hc) by (by rewrite Hr).
    intros [= <- <-]. left. exists r. by rewrite Hr.
  - rewrite (git_checkout_unknown _ _ _ _ Hc Hr). intros [= <- _]. by right.
Qed.

Lemma cache_checked_out path ref r w :
  cache (checked_out path ref r w) !! path = Some (Clone (set_HEAD ref r)).
Proof. unfold checked_out. cbn. by rewrite lookup_insert_eq. Qed.

Lemma active_ref_checked_out path ref r w :
  active_ref path (checked_out path ref r w) = Some ref.
Proof. unfold active_ref. by rewrite cache_checked_out. Qed.

Lemma history_set_HEAD ref r hist :
  revs r !! ref = Some hist → history (set_HEAD ref r) = hist.
Proof. intros H. unfold history. cbn. by rewrite H. Qed.

Lemma iter_commits_ok path depth p r w :
  cache w !! path = Some (Clone r) →
  iter_commits path depth (Some p) w =
    (Ok (cap depth (List.filter (touches p) (history r))), w).
Proof.
  intros Hc. unfold iter_commits, the_repo, mbind, M_bind, mret, M_ret. by rewrite Hc.
Qed.

Lemma length_cap {A} d (l : list A) : (List.length (cap (Some d) l) ≤ d)%nat.
Proof. cbn. rewrite length_take. lia. Qed.

(** ** Commit history *)

Section History.

Context (E : engine) (self : ModulesRepo).

Lemma get_component_git_log_eq w r hist component_name component_type depth :
  cache w !! local_repo_dir self = Some (Clone r) →
  revs r !! branch self = Some hist →
  get_component_git_log self component_name component_type depth w =
    (Ok ((to_record <$> cap depth (List.filter
              (touches (current_path self component_type component_name)) hist)) ++
         (if String.eqb component_type "modules"
          then to_record <$> cap depth (List.filter
                 (touches (legacy_path component_name)) hist)
          else []))%list,
     checked_out (local_repo_dir self) (branch self) r w).
Proof.
  intros Hc Hr. unfold get_component_git_log, checkout_branch.
  erewrite bind_ok; [|by apply git_checkout_ok].
  erewrite bind_ok; [|apply iter_commits_ok, cache_checked_out].
  rewrite (history_set_HEAD _ _ _ Hr).
  destruct (String.eqb component_type "modules"); [|done].
  erewrite bind_ok; [|erewrite bind_ok; [|apply iter_commits_ok, cache_checked_out]; done].
  by rewrite (history_set_HEAD _ _ _ Hr).
Qed.

(** C4. The depth caps each layout on its own.  On a working copy
    whose branch has the history [hist], the log of a component is
    the list [news ++ olds]: [news] holds the first [depth] commits of
    [hist] that touch the path of the component under the current
    layout; [olds] holds, for the kind modules, the first [depth]
    commits that touch its path under the superseded layout, and is
    empty for every other kind.  Each part has at most [depth]
    records, the whole at most twice as many. *)
Theorem get_component_git_log_depth_per_layout
    w r hist component_name component_type depth :
  cache w !! local_repo_dir self = Some (Clone r) →
  revs r !! branch self = Some hist →
  ∃ news olds w',
    get_component_git_log self component_name component_type depth w
      = (Ok (news ++ olds)%list, w')
    ∧ news = to_record <$> cap depth (List.filter
               (touches (current_path self component_type component_name)) hist)
    ∧ (component_type = "modules" →
       olds = to_record <$> cap depth (List.filter
                (touches (legacy_path component_name)) hist))
    ∧ (component_type ≠ "modules" → olds = [])
    ∧ (∀ d, depth = Some d →
         (List.length news ≤ d)%nat ∧ (List.length olds ≤ d)%nat
         ∧ (List.length (news ++ olds)%list ≤ 2 * d)%nat).
Proof.
  intros Hc Hr. eexists _, _, _. split.
  { by apply get_component_git_log_eq. }
  split; [done|]. split; [|split].
  - intros ->. done.
  - intros Hne. destruct (String.eqb_spec component_type "modules"); done.
  - intros d ->.
    assert (H1 : ∀ p, (List.length (to_record <$> cap (Some d)
                        (List.filter (touches p) hist)) ≤ d)%nat).
    { intros p. rewrite length_fmap. apply length_cap. }
    assert (H2 : (List.length (if String.eqb component_type "modules"
                  then to_record <$> cap (Some d) (List.filter
                         (touches (legacy_path component_name)) hist)
                  else []) ≤ d)%nat).
    { destruct (String.eqb component_type "modules"); [apply H1|cbn; lia]. }
    split; [apply H1|]. split; [apply H2|].
    rewrite length_app. specialize (H1 (current_path self component_type component_name)). lia.
Qed.

(** C8. The latest version of a component is the commit identifier
    of the first record of its history of depth one, and the call
    fails, with the [IndexError] of the empty list, exactly when
    that history is empty: when no commit of the branch touches the
    component under the current layout nor, for the kind modules,
    under the superseded one. *)
Theorem get_latest_component_version_first_of_depth_one
    w r hist component_name component_type :
  cache w !! local_repo_dir self = Some (Clone r) →
  revs r !! branch self = Some hist →
  ∃ commits w',
    get_component_git_log self component_name component_type (Some 1%nat) w
      = (Ok commits, w')
    ∧ get_latest_component_version self component_name component_type w
      = (match commits with
         | [] => Raise IndexError
         | c :: _ => Ok (git_sha c)
         end, w')
    ∧ (commits = [] ↔
       List.filter (touches (current_path self component_type component_name)) hist = []
       ∧ (component_type = "modules" →
          List.filter (touches (legacy_path component_name)) hist = [])).
Proof.
  intros Hc Hr. eexists _, _. split.
  { by apply get_component_git_log_eq. }
  split.
  - unfold get_latest_component_version.
    erewrite bind_ok; [|by apply get_component_git_log_eq].
    by destruct (_ ++ _)%list.
  - destruct (List.filter (touches (current_path _ _ _)) hist) as [|c cs] eqn:Hn; cbn.
    + destruct (String.eqb_spec component_type "modules") as [->|Hne].
      * destruct (List.filter (touches (legacy_path _)) hist); cbn.
        -- split; [by intros _|done].
        -- split; [done|]. intros [_ H]. by specialize (H eq_refl).
      * split; [by intros _|done].
    + split; [done|by intros [? _]].
Qed.

End History.

(** ** Installing a component *)

Section Install.

Context (self : ModulesRepo).

(** The catalog, read without a checkout, leaves the state as it is. *)
Lemma get_avail_components_reads component_type w res w' :
  get_avail_components self component_type false w = (res, w') → w' = w.
Proof.
  unfold get_avail_components, pass, os_walk, gets, raise, mbind, M_bind, mret, M_ret.
  destruct (String.eqb component_type "modules");
    [|destruct (String.eqb component_type "subworkflows")];
    by intros [= _ <-].
Qed.

Lemma component_exists_reads component_name component_type w res w' :
  component_exists self component_name component_type false w = (res, w') → w' = w.
Proof.
  unfold component_exists. intros H.
  apply bind_inv in H as [(names & w1 & H1 & H2)|(e & H1 & _)].
  - apply get_avail_components_reads in H1 as ->. by inversion H2.
  - by apply get_avail_components_reads in H1.
Qed.

Lemma checkout_ok commit r w :
  cache w !! local_repo_dir self = Some (Clone r) →
  is_Some (revs r !! commit) →
  checkout self commit w = (Ok tt, checked_out (local_repo_dir self) commit r w).
Proof. apply git_checkout_ok. Qed.


(** A commit without the component: the call returns failure after
    the checkout and one line of log. *)
Lemma install_component_absent
    w r component_name install_dir commit component_type :
  cache w !! local_repo_dir self = Some (Clone r) →
  is_Some (revs r !! commit) →
  (component_exists self component_name component_type false
     (checked_out (local_repo_dir self) commit r w)).1 = Ok false →
  install_component self component_name install_dir commit component_type w
    = (Ok false,
       add_log ERROR
         ("The requested " +:+ but_last component_type
          +:+ " does not exists in the branch '" +:+ branch self
          +:+ "' of " +:+ remote_url self +:+ "'")
         (checked_out (local_repo_dir self) commit r w)).
Proof.
  intros Hc Hr Habs.
  destruct (component_exists self component_name component_type false
              (checked_out (local_repo_dir self) commit r w)) as [res w1] eqn:Hex.
  pose proof (component_exists_reads _ _ _ _ _ Hex) as ->.
  cbn in Habs. subst res.
  unfold install_component.
  erewrite bind_ok.
  2:{ apply try_except_ok. erewrite bind_ok; [|by apply checkout_ok]. reflexivity. }
  cbn [negb]. erewrite bind_ok; [|exact Hex].
  cbn [negb]. by erewrite bind_ok.
Qed.

(** On the path that the code does restore: a call that returns
    success has checked the branch out again. *)
Lemma install_component_success_on_branch
    w component_name install_dir commit component_type w' :
  install_component self component_name install_dir commit component_type w
    = (Ok true, w') →
  active_ref (local_repo_dir self) w' = Some (branch self).
Proof.
  unfold install_component. intros Hrun.
  apply bind_inv in Hrun as [(checked & w1 & _ & Hrun)|(e & _ & [=])].
  destruct checked; cbn [negb] in Hrun; [|by injection Hrun].
  apply bind_inv in Hrun as [(found & w2 & _ & Hrun)|(e & _ & [=])].
  destruct found; cbn [negb] in Hrun.
  - apply bind_inv in Hrun as [([] & w3 & _ & Hrun)|(e & _ & [=])].
    apply bind_inv in Hrun as [([] & w4 & Hback & Hrun)|(e & _ & [=])].
    injection Hrun as <-.
    apply git_checkout_inv in Hback as [(r & _ & _ & _ & ->)|[=]].
    apply active_ref_checked_out.
  - apply bind_inv in Hrun as [([] & w3 & _ & Hrun)|(e & _ & [=])]. by injection Hrun.
Qed.

(** On the path of the absent component the commit stays checked
    out. *)
Lemma install_component_absent_on_commit
    w r component_name install_dir commit component_type :
  cache w !! local_repo_dir self = Some (Clone r) →
  is_Some (revs r !! commit) →
  (component_exists self component_name component_type false
     (checked_out (local_repo_dir self) commit r w)).1 = Ok false →
  active_ref (local_repo_dir self)
    (install_component self component_name install_dir commit component_type w).2
    = Some commit.
Proof.
  intros Hc Hr Habs. rewrite (install_component_absent _ _ _ _ _ _ Hc Hr Habs).
  apply active_ref_checked_out.
Qed.

(** C9. At a commit where the component does not exist under the
    requested kind, [install_component] returns failure, the files
    outside the cache are what they were, and the only call made is
    the checkout of the commit: no copy is started. *)
Theorem install_component_absent_creates_nothing
    w r component_name install_dir commit component_type :
  cache w !! local_repo_dir self = Some (Clone r) →
  is_Some (revs r !! commit) →
  (component_exists self component_name component_type false
     (checked_out (local_repo_dir self) commit r w)).1 = Ok false →
  ∃ w',
    install_component self component_name install_dir commit component_type w
      = (Ok false, w')
    ∧ project w' = project w
    ∧ trace w' = (trace w ++ [EvCheckout (local_repo_dir self) commit])%list.
Proof.
  intros Hc Hr Habs. eexists. split.
  { by apply install_component_absent. }
  done.
Qed.

End Install.

(** C1, on the code as it is.  The component fastqc does not exist
    under modules/nf-core at the first commit of the sample: the call
    returns failure and leaves the working copy on that commit, not on
    the branch.  When the destination exists already, the copy raises
    and the working copy stays on the commit as well. *)
Theorem install_component_failure_stays_on_commit :
  let absent := install_component Sample.self "fastqc" "/proj/modules/nf-core"
                  "1111111" "modules" Sample.cached in
  let exists_ := install_component Sample.self "fastqc" "/proj/modules/nf-core"
                   "2222222" "modules" Sample.pipeline in
  branch Sample.self = "master"
  ∧ absent.1 = Ok false
  ∧ active_ref Sample.dir absent.2 = Some "1111111"
  ∧ exists_.1 = Raise (FileExistsError "/proj/modules/nf-core/fastqc")
  ∧ active_ref Sample.dir exists_.2 = Some "2222222".
Proof. vm_compute. done. Qed.

(** ** Comparing installed files with the upstream ones *)






Lemma stat_path_ext w w' path :
  cache w' = cache w → project w' = project w → stat_path w' path = stat_path w path.
Proof. intros Hc Hp. unfold stat_path, disk. by rewrite Hc, Hp. Qed.



Section Diff.

Context (self : ModulesRepo).


End Diff.


(** ** The branches of a remote *)






(** ** Resolving the branch *)

Section Branch.

Context (self : ModulesRepo).



End Branch.





(** ** The layout check of [__init__] *)

Lemma verify_branch_eq self dir_names w :
  os_listdir (local_repo_dir self) w = (Ok dir_names, w) →
  verify_branch self w =
    if bool_decide ("modules" ∈ dir_names) then (Ok tt, w)
    else (Raise (LookupError (if bool_decide ("software" ∈ dir_names)
                              then missing_modules_message self +:+ rename_hint
                              else missing_modules_message self)), w).
Proof.
  intros Hls. unfold verify_branch. erewrite bind_ok; [|exact Hls].
  destruct (decide ("modules" ∈ dir_names)) as [Hin|Hin].
  - rewrite (bool_decide_eq_false_2 ("modules" ∉ dir_names)) by (by intros ?).
    rewrite bool_decide_eq_true_2 by done. reflexivity.
  - rewrite (bool_decide_eq_true_2 ("modules" ∉ dir_names)) by done.
    rewrite (bool_decide_eq_false_2 ("modules" ∈ dir_names)) by done.
    cbv zeta. by destruct (bool_decide ("software" ∈ dir_names)).
Qed.

Lemma length_append (a b : string) :
  String.length (a +:+ b) = (String.length a + String.length b)%nat.
Proof. induction a as [|c a IH]; simpl; [done|by f_equal]. Qed.

Lemma rename_hint_changes_message (msg : string) : msg +:+ rename_hint ≠ msg.
Proof.
  intros H. assert (Hlen : String.length (msg +:+ rename_hint) = String.length msg)
    by (by rewrite H).
  rewrite length_append in Hlen. vm_compute (String.length rename_hint) in Hlen. lia.
Qed.

(** C2, as the code has it.  Once the local clone is set up, the
    initialisation of a registry whose configured [org_path] is not
    nf-core checks that modules is a name directly inside the
    directory of the clone.  When it is not, the call fails with a
    lookup failure whose message is extended by the hint about the
    renaming of software/ exactly when software is a name of that
    directory. *)
Theorem init_checks_modules_directory E replies remote_url_arg branch_arg no_pull w
    self1 w1 config_fn repo_config org_path dir_names :
  let url := default NF_CORE_MODULES_REMOTE remote_url_arg in
  setup_local_repo E replies (new_instance E url) url branch_arg
    (set_no_pull (no_pull_global w || no_pull) w) = (Ok self1, w1) →
  load_tools_config E (match cache w1 !! local_repo_dir self1 with
                       | Some (Clone r) => worktree r
                       | _ => ∅
                       end) = (config_fn, repo_config) →
  repo_config !! "org_path" = Some org_path →
  org_path ≠ NF_CORE_MODULES_NAME →
  os_listdir (local_repo_dir self1) w1 = (Ok dir_names, w1) →
  __init__ E replies remote_url_arg branch_arg no_pull w =
    if bool_decide ("modules" ∈ dir_names)
    then (Ok (set_dirs
                (Py.os_path_join (Py.os_path_join (local_repo_dir self1) "modules") org_path)
                (Py.os_path_join (Py.os_path_join (local_repo_dir self1) "subworkflows") org_path)
                (set_repo_path org_path self1)), w1)
    else (Raise (LookupError
                   (if bool_decide ("software" ∈ dir_names)
                    then missing_modules_message self1 +:+ rename_hint
                    else missing_modules_message self1)), w1).
Proof.
  intros url Hsetup Hconfig Horg Hne Hls. unfold __init__.
  erewrite bind_ok; [|reflexivity]. fold url.
  erewrite bind_ok; [|exact Hsetup].
  erewrite bind_ok; [|reflexivity].
  rewrite Hconfig, Horg.
  assert (Hguard : negb (String.eqb (repo_path (set_repo_path org_path self1))
                           NF_CORE_MODULES_NAME) = true).
  { cbn [repo_path set_repo_path]. by destruct (String.eqb_spec org_path NF_CORE_MODULES_NAME). }
  rewrite Hguard. cbn [orb].
  pose proof (verify_branch_eq (set_repo_path org_path self1) dir_names w1 Hls) as Hv.
  change (missing_modules_message (set_repo_path org_path self1))
    with (missing_modules_message self1) in Hv.
  destruct (bool_decide ("modules" ∈ dir_names)).
  - by erewrite bind_ok.
  - by erewrite bind_raise.
Qed.

Lemma init_checks_modules_directory_witness :
  __init__ Sample.E [] (Some Sample.acme_url) None false Sample.fresh =
    if bool_decide ("modules" ∈ [".git"; "modules"; ".nf-core.yml"])
    then (Ok (set_dirs
                (Py.os_path_join (Py.os_path_join Sample.acme_dir "modules") "acme")
                (Py.os_path_join (Py.os_path_join Sample.acme_dir "subworkflows") "acme")
                (set_repo_path "acme" Sample.acme_self)), Sample.acme_cloned)
    else (Raise (LookupError
                   (if bool_decide ("software" ∈ [".git"; "modules"; ".nf-core.yml"])
                    then missing_modules_message Sample.acme_self +:+ rename_hint
                    else missing_modules_message Sample.acme_self)), Sample.acme_cloned).
Proof.
  apply (init_checks_modules_directory Sample.E [] (Some Sample.acme_url) None false
           Sample.fresh Sample.acme_self Sample.acme_cloned ".nf-core.yml"
           {[ "org_path" := "acme" ]} "acme" [".git"; "modules"; ".nf-core.yml"]).
  - vm_compute. reflexivity.
  - vm_compute. reflexivity.
  - vm_compute. reflexivity.
  - discriminate.
  - vm_compute. reflexivity.
Defined.

(** C2, as the claim has it, fails.  For the canonical registry on
    its default branch, with a clone that still has software/ and no
    modules/, the check is made and the initialisation fails.  For the
    other registry of the sample the initialisation succeeds, though
    there is no modules directory under its [org_path]: the check
    looks at the top of the working copy. *)
Lemma init_check_not_as_claimed :
  (__init__ Sample.E [] None None false Sample.cached_legacy).1
    = Raise (LookupError (missing_modules_message Sample.self +:+ rename_hint))
  ∧ is_Some (match (__init__ Sample.E [] (Some Sample.acme_url) None false Sample.fresh).1 with
             | Ok self => Some self
             | Raise _ => None
             end)
  ∧ stat_path Sample.acme_cloned
      (Py.os_path_join (Py.os_path_join Sample.acme_dir "acme") "modules") = None
  ∧ is_Some (stat_path Sample.acme_cloned (Py.os_path_join Sample.acme_dir "modules")).
Proof.
  split; [by vm_compute|]. split; [vm_compute; eauto|].
  split; [by vm_compute|vm_compute; eauto].
Qed.

(** The guard of [__init__] tests the resolved branch, which
    [setup_branch] has set by then: the check is skipped only for a
    registry with [org_path] nf-core whose resolved branch is the
    empty string. *)
Lemma init_guard_skips_only_empty_branch (self : ModulesRepo) :
  negb (String.eqb (repo_path self) NF_CORE_MODULES_NAME) || truthy (branch self) = false
  ↔ repo_path self = NF_CORE_MODULES_NAME ∧ branch self = "".
Proof.
  unfold truthy.
  destruct (String.eqb_spec (repo_path self) NF_CORE_MODULES_NAME),
           (String.eqb_spec (branch self) ""); cbn; intuition congruence.
Qed.

(** ** Runs that leave the sync status alone *)

Section Quiet.

Context (P : event → bool).

Lemma quiet_refl w : quiet P w w.
Proof.
  split; [done|]. split; [done|]. exists []. split; [by rewrite app_nil_r|constructor].
Qed.

Lemma quiet_trans w1 w2 w3 : quiet P w1 w2 → quiet P w2 w3 → quiet P w1 w3.
Proof.
  intros (Hs1 & Hn1 & evs1 & Ht1 & Hp1) (Hs2 & Hn2 & evs2 & Ht2 & Hp2).
  split; [congruence|]. split; [congruence|].
  exists (evs1 ++ evs2)%list. split.
  - by rewrite Ht2, Ht1, app_assoc.
  - by apply Forall_app.
Qed.

Lemma quietly_ret {A} (a : A) : quietly P (mret a).
Proof. intros w res w' [= _ <-]. apply quiet_refl. Qed.

Lemma quietly_pass : quietly P pass.
Proof. apply quietly_ret. Qed.

Lemma quietly_raise {A} e : quietly P (raise e : M A).
Proof. intros w res w' [= _ <-]. apply quiet_refl. Qed.

Lemma quietly_gets {A} (f : world → A) : quietly P (gets f).
Proof. intros w res w' [= _ <-]. apply quiet_refl. Qed.

Lemma quietly_log l msg : quietly P (log_ l msg).
Proof.
  intros w res w' [= _ <-]. split; [done|]. split; [done|].
  exists []. split; [by rewrite app_nil_r|constructor].
Qed.

Lemma quietly_emit e : P e = true → quietly P (emit e).
Proof.
  intros He w res w' [= _ <-]. split; [done|]. split; [done|].
  exists [e]. split; [done|by constructor].
Qed.

Lemma quietly_set_cache (f : world → gmap string cache_dir) :
  quietly P (modify (λ w, set_cache (f w) w)).
Proof.
  intros w res w' [= _ <-]. split; [done|]. split; [done|].
  exists []. split; [by rewrite app_nil_r|constructor].
Qed.

Lemma quietly_put_repo path r : quietly P (put_repo path r).
Proof. apply quietly_set_cache. Qed.

Lemma quietly_the_repo path : quietly P (the_repo path).
Proof.
  intros w res w'. unfold the_repo.
  destruct (cache w !! path) as [[|r]|]; intros [= _ <-]; apply quiet_refl.
Qed.

Lemma quietly_git_Repo path : quietly P (git_Repo path).
Proof.
  intros w res w'. unfold git_Repo.
  destruct (cache w !! path) as [[|r]|]; intros [= _ <-]; apply quiet_refl.
Qed.

Lemma quietly_bind {A B} (c : M A) (f : A → M B) :
  quietly P c → (∀ a, quietly P (f a)) → quietly P (c ≫= f).
Proof.
  intros Hc Hf w res w' Hrun.
  apply bind_inv in Hrun as [(a & w1 & H1 & H2)|(e & H1 & _)].
  - eapply quiet_trans; [by eapply Hc|by eapply Hf].
  - by eapply Hc.
Qed.

Lemma quietly_try_except {A} (body : M A) handles handler :
  quietly P body → (∀ e, quietly P (handler e)) →
  quietly P (try_except body handles handler).
Proof.
  intros Hb Hh w res w' Hrun.
  apply try_except_inv in Hrun
    as [(a & H1 & _)|[(e & H1 & _ & _)|(e & w1 & H1 & _ & H2)]].
  - by eapply Hb.
  - by eapply Hb.
  - eapply quiet_trans; [by eapply Hb|by eapply Hh].
Qed.

Lemma quietly_git_checkout path ref :
  P (EvCheckout path ref) = true → quietly P (git_checkout path ref).
Proof.
  intros He. unfold git_checkout.
  apply quietly_bind; [by apply quietly_emit|intros _].
  apply quietly_bind; [apply quietly_the_repo|intros r].
  destruct (bool_decide _); [apply quietly_put_repo|apply quietly_raise].
Qed.

End Quiet.

Lemma quiet_mono (P Q : event → bool) w w' :
  (∀ e, P e = true → Q e = true) → quiet P w w' → quiet Q w w'.
Proof.
  intros HPQ (Hs & Hn & evs & Ht & Hp). split; [done|]. split; [done|].
  exists evs. split; [done|]. eapply Forall_impl; [exact Hp|]. cbn. auto.
Qed.

Lemma quietly_branch_exists self : quietly is_lookup (branch_exists self).
Proof.
  apply quietly_try_except; [by apply quietly_git_checkout|].
  intros e. apply quietly_raise.
Qed.

Lemma quietly_get_default_branch self : quietly is_lookup (get_default_branch self).
Proof.
  unfold get_default_branch.
  apply quietly_bind; [by apply quietly_emit|intros _].
  apply quietly_bind; [apply quietly_the_repo|intros r].
  destruct (List.find _ _) as [[name [target|]]|]; try apply quietly_raise.
  destruct (Py.split Py.slash target) as [|? [|b [|? ?]]];
    try apply quietly_raise. apply quietly_ret.
Qed.

Lemma quietly_setup_branch self branch_arg :
  quietly is_lookup (setup_branch self branch_arg).
Proof.
  unfold setup_branch. apply quietly_bind.
  - destruct branch_arg as [b|]; [apply quietly_ret|].
    destruct (String.eqb _ _); [apply quietly_ret|].
    apply quietly_bind; [apply quietly_get_default_branch|intros b; apply quietly_ret].
  - intros self'. apply quietly_bind; [apply quietly_branch_exists|intros _; apply quietly_ret].
Qed.

Lemma quietly_merge_tracking E self :
  quietly (λ e, negb (is_network e)) (merge_tracking E self).
Proof.
  unfold merge_tracking.
  apply quietly_bind; [apply quietly_the_repo|intros r].
  destruct (tracking r !! HEAD r) as [t|]; [|apply quietly_raise].
  apply quietly_bind; [|intros _; apply quietly_ret].
  unfold merge_step.
  apply quietly_bind; [by apply quietly_emit|intros _].
  apply quietly_bind; [apply quietly_the_repo|intros r'].
  destruct (git_merge E r' t); [apply quietly_put_repo|apply quietly_raise].
Qed.

(** ** The sync status through [setup_local_repo] *)

Lemma synced_same n w w' :
  local_repo_statuses w' = local_repo_statuses w → synced n w' = synced n w.
Proof. intros H. unfold synced. by rewrite H. Qed.

Lemma synced_mark name n w w' :
  local_repo_statuses w' = <[name := true]> (local_repo_statuses w) →
  synced n w' = if bool_decide (n = name) then true else synced n w.
Proof.
  intros H. unfold synced. rewrite H. case_bool_decide as Hn.
  - subst n. by rewrite lookup_insert_eq.
  - by rewrite lookup_insert_ne.
Qed.

Lemma synced_mark_mono name n w w' :
  local_repo_statuses w' = <[name := true]> (local_repo_statuses w) →
  synced n w = true → synced n w' = true.
Proof. intros H Hn. rewrite (synced_mark _ _ _ _ H). by case_bool_decide. Qed.

Lemma synced_mark_this name w w' :
  local_repo_statuses w' = <[name := true]> (local_repo_statuses w) →
  synced name w' = true.
Proof. intros H. rewrite (synced_mark _ _ _ _ H). by rewrite bool_decide_eq_true_2. Qed.

Lemma is_sync_event_network path e : is_sync_event path e = true → is_network e = true.
Proof. by destruct e as [? ? []|? []| | | | | |]. Qed.

Lemma is_fetch_network e : is_fetch e = true → is_network e = true.
Proof. by destruct e. Qed.

Section SyncRun.

Context (E : engine) (name path : string).

Lemma sync_run_refl w : sync_run name path w w.
Proof.
  split; [done|]. exists []. split; [by rewrite app_nil_r|].
  split; [done|]. split; [by intros _; constructor|].
  split; [by intros ?%Exists_nil|]. intros H1 H2. congruence.
Qed.

Lemma sync_run_trans w1 w2 w3 :
  sync_run name path w1 w2 → sync_run name path w2 w3 → sync_run name path w1 w3.
Proof.
  intros (Hn1 & evs1 & Ht1 & Hm1 & Hf1 & Hs1 & Hl1) (Hn2 & evs2 & Ht2 & Hm2 & Hf2 & Hs2 & Hl2).
  split; [congruence|]. exists (evs1 ++ evs2)%list.
  split; [by rewrite Ht2, Ht1, app_assoc|].
  split; [by auto|]. split; [|split].
  - intros H1. apply Forall_app. auto.
  - intros [H|H]%Exists_app; auto.
  - intros H1 H3. destruct (synced name w2) eqn:H2.
    + destruct (Hl1 H1 eq_refl) as [H|H]; [left|by right]. apply Exists_app. by left.
    + destruct (Hl2 eq_refl H3) as [H|H]; [left|right; congruence]. apply Exists_app. by right.
Qed.

Lemma quiet_sync_run w w' :
  quiet (λ e, negb (is_network e)) w w' → sync_run name path w w'.
Proof.
  intros (Hs & Hn & evs & Ht & Hp). split; [done|]. exists evs. split; [done|].
  split; [|split; [|split]].
  - intros n. by rewrite (synced_same n w w').
  - intros _. eapply Forall_impl; [exact Hp|]. cbn. intros e He.
    destruct (is_fetch e) eqn:Hf; [|done].
    apply is_fetch_network in Hf. by rewrite Hf in He.
  - intros Hex. apply Exists_exists in Hex as (e & Hin & He).
    rewrite Forall_forall in Hp. specialize (Hp e Hin). cbn in Hp.
    apply is_sync_event_network in He. by rewrite He in Hp.
  - intros H1 H2. rewrite (synced_same name w w') in H2 by done. congruence.
Qed.

Lemma quietly_sync_run {A} (P : event → bool) (c : M A) w res w' :
  (∀ e, P e = true → is_network e = false) →
  quietly P c → c w = (res, w') → sync_run name path w w'.
Proof.
  intros HP Hc Hrun. apply quiet_sync_run.
  eapply quiet_mono; [|by eapply Hc]. cbn. intros e He. by rewrite (HP e He).
Qed.

End SyncRun.

Section SyncSteps.

Context (E : engine) (self : ModulesRepo).

Lemma clone_step_sync_run remote w res w' :
  clone_step E self remote w = (res, w') →
  sync_run (fullname self) (local_repo_dir self) w w'.
Proof.
  set (name := fullname self). set (path := local_repo_dir self).
  unfold clone_step, try_except. fold name path.
  destruct (clone_from E remote) as [r|]; intros [= _ <-].
  - split; [done|]. exists [EvCloneFrom remote path true]. split; [done|].
    split; [|split; [|split]].
    + intros n. by apply (synced_mark_mono name).
    + intros _. by repeat constructor.
    + intros _. by apply (synced_mark_this name w).
    + intros _ _. left. constructor. cbn. apply String.eqb_refl.
  - split; [done|]. exists [EvCloneFrom remote path false]. split; [done|].
    split; [done|]. split; [by intros _; repeat constructor|].
    split; [|intros H1 H2; unfold synced in *; cbn in *; congruence].
    intros [H|H%Exists_nil]%Exists_cons; done.
Qed.

Lemma sync_existing_sync_run r w res w' :
  sync_existing E self r w = (res, w') →
  sync_run (fullname self) (local_repo_dir self) w w'.
Proof.
  set (name := fullname self). set (path := local_repo_dir self).
  unfold sync_existing.
  unfold mbind, M_bind, gets, modify, pass, mret, M_ret, local_repo_synced,
    update_local_repo_status, fetch_step, emit, put_repo, raise.
  fold name path.
  destruct (no_pull_global w) eqn:Hnp.
  - cbn. rewrite lookup_insert_eq. cbn. intros [= _ <-].
    split; [done|]. exists []. split; [by rewrite app_nil_r|].
    split; [|split; [|split]].
    + intros n. by apply (synced_mark_mono name).
    + intros _. constructor.
    + by intros ?%Exists_nil.
    + intros _ _. by right.
  - cbn. destruct (default false (local_repo_statuses w !! name)) eqn:Hsynced.
    + cbn. intros [= _ <-]. apply sync_run_refl.
    + cbn. destruct (origin_fetch E r) as [r'|]; cbn; intros [= _ <-].
      * split; [done|]. exists [EvFetch path true]. split; [done|].
        split; [|split; [|split]].
        -- intros n. by apply (synced_mark_mono name).
        -- unfold synced. rewrite Hsynced. done.
        -- intros _. by apply (synced_mark_this name w).
        -- intros _ _. left. constructor. cbn. apply String.eqb_refl.
      * split; [done|]. exists [EvFetch path false]. split; [done|].
        split; [done|]. split; [|split].
        -- unfold synced. rewrite Hsynced. done.
        -- intros [H|H%Exists_nil]%Exists_cons; done.
        -- intros H1 H2. unfold synced in *; cbn in *; congruence.
Qed.

End SyncSteps.

Section Syncs.

Context (E : engine) (name path : string).

Lemma syncs_quietly {A} (P : event → bool) (c : M A) :
  (∀ e, P e = true → is_network e = false) → quietly P c → syncs name path c.
Proof. intros HP Hc w res w' Hrun. by eapply quietly_sync_run. Qed.

Lemma syncs_bind {A B} (c : M A) (f : A → M B) :
  syncs name path c → (∀ a, syncs name path (f a)) → syncs name path (c ≫= f).
Proof.
  intros Hc Hf w res w' Hrun.
  apply bind_inv in Hrun as [(a & w1 & H1 & H2)|(e & H1 & _)].
  - eapply sync_run_trans; [by eapply Hc|by eapply Hf].
  - by eapply Hc.
Qed.

Lemma syncs_try_except {A} (body : M A) handles handler :
  syncs name path body → (∀ e, syncs name path (handler e)) →
  syncs name path (try_except body handles handler).
Proof.
  intros Hb Hh w res w' Hrun.
  apply try_except_inv in Hrun
    as [(a & H1 & _)|[(e & H1 & _ & _)|(e & w1 & H1 & _ & H2)]].
  - by eapply Hb.
  - by eapply Hb.
  - eapply sync_run_trans; [by eapply Hb|by eapply Hh].
Qed.

End Syncs.

Lemma lookup_not_network e : is_lookup e = true → is_network e = false.
Proof. by destruct e. Qed.

Lemma local_not_network e : negb (is_network e) = true → is_network e = false.
Proof. by destruct (is_network e). Qed.

Lemma syncs_setup_local_repo_body E self remote branch_arg :
  syncs (fullname self) (local_repo_dir self)
    (setup_local_repo_body E self remote branch_arg).
Proof.
  unfold setup_local_repo_body.
  apply syncs_bind.
  { eapply syncs_quietly; [apply lookup_not_network|apply quietly_gets]. }
  intros present. destruct (negb present).
  - apply syncs_bind; [intros w res w'; apply clone_step_sync_run|intros _].
    eapply syncs_quietly; [apply lookup_not_network|apply quietly_setup_branch].
  - apply syncs_bind.
    + unfold open_existing. apply syncs_bind.
      { eapply syncs_quietly; [apply lookup_not_network|apply quietly_git_Repo]. }
      intros r. apply syncs_bind; [intros w res w'; apply sync_existing_sync_run|intros _].
      eapply syncs_quietly; [apply lookup_not_network|apply quietly_setup_branch].
    + intros self'.
      eapply syncs_quietly; [apply local_not_network|apply quietly_merge_tracking].
Qed.

Lemma syncs_setup_local_repo E replies self remote branch_arg :
  syncs (fullname self) (Py.os_path_join (NFCORE_DIR E) (fullname self))
    (setup_local_repo E replies self remote branch_arg).
Proof.
  revert self. induction replies as [|reply replies IH]; intros self; cbn [setup_local_repo].
  all: apply syncs_try_except;
    [apply (syncs_setup_local_repo_body E
              (set_local_repo_dir (Py.os_path_join (NFCORE_DIR E) (fullname self)) self))|].
  all: intros e; apply syncs_bind;
    [eapply syncs_quietly; [apply lookup_not_network|apply quietly_log]|intros _].
  - eapply syncs_quietly; [apply lookup_not_network|apply quietly_raise].
  - destruct reply.
    + apply syncs_bind;
        [eapply syncs_quietly; [apply local_not_network|by apply quietly_emit]|intros _].
      apply syncs_bind;
        [eapply syncs_quietly; [apply local_not_network|apply quietly_log]|intros _].
      apply syncs_bind;
        [eapply syncs_quietly; [apply local_not_network|by apply quietly_emit]|intros _].
      apply syncs_bind;
        [eapply syncs_quietly; [apply local_not_network|apply quietly_set_cache]|intros _].
      apply (IH (set_local_repo_dir (Py.os_path_join (NFCORE_DIR E) (fullname self)) self)).
    + apply syncs_bind;
        [eapply syncs_quietly; [apply local_not_network|by apply quietly_emit]|intros _].
      eapply syncs_quietly; [apply lookup_not_network|apply quietly_raise].
Qed.

Lemma clone_step_ok_synced E self remote w w' :
  clone_step E self remote w = (Ok tt, w') → synced (fullname self) w' = true.
Proof.
  unfold clone_step, try_except.
  destruct (clone_from E remote) as [r|]; intros [= <-].
  by apply (synced_mark_this (fullname self) w).
Qed.

Lemma sync_existing_ok_synced E self r w w' :
  sync_existing E self r w = (Ok tt, w') → synced (fullname self) w' = true.
Proof.
  unfold sync_existing.
  unfold mbind, M_bind, gets, modify, pass, mret, M_ret, local_repo_synced,
    update_local_repo_status, fetch_step, emit, put_repo, raise.
  destruct (no_pull_global w) eqn:Hnp.
  - cbn. rewrite lookup_insert_eq. cbn. intros [= <-].
    by apply (synced_mark_this (fullname self) w).
  - cbn. destruct (default false (local_repo_statuses w !! fullname self)) eqn:Hsynced.
    + cbn. by intros [= <-].
    + cbn. destruct (origin_fetch E r) as [r'|]; cbn; intros [= <-].
      by apply (synced_mark_this (fullname self) w).
Qed.

Lemma sync_run_keeps_synced name path w w' :
  sync_run name path w w' → synced name w = true → synced name w' = true.
Proof. intros (_ & evs & _ & Hm & _). apply Hm. Qed.

Lemma setup_local_repo_body_ok_synced E self remote branch_arg w self' w' :
  setup_local_repo_body E self remote branch_arg w = (Ok self', w') →
  synced (fullname self) w' = true.
Proof.
  unfold setup_local_repo_body. intros Hrun.
  apply bind_inv in Hrun as [(present & w0 & Hp & Hrun)|(e & _ & ?)]; [|done].
  injection Hp as _ <-. destruct (negb present).
  - apply bind_inv in Hrun as [([] & w1 & Hclone & Hrun)|(e & _ & ?)]; [|done].
    eapply (sync_run_keeps_synced _ (local_repo_dir self)).
    + eapply syncs_quietly; [apply lookup_not_network|apply quietly_setup_branch|exact Hrun].
    + by eapply clone_step_ok_synced.
  - apply bind_inv in Hrun as [(self1 & w1 & Hopen & Hrun)|(e & _ & ?)]; [|done].
    eapply (sync_run_keeps_synced _ (local_repo_dir self)).
    { eapply syncs_quietly; [apply local_not_network|apply quietly_merge_tracking|exact Hrun]. }
    unfold open_existing in Hopen.
    apply bind_inv in Hopen as [(r & w2 & _ & Hopen)|(e & _ & ?)]; [|done].
    apply bind_inv in Hopen as [([] & w3 & Hsync & Hopen)|(e & _ & ?)]; [|done].
    eapply (sync_run_keeps_synced _ (local_repo_dir self)).
    + eapply syncs_quietly; [apply lookup_not_network|apply quietly_setup_branch|exact Hopen].
    + by eapply sync_existing_ok_synced.
Qed.

Lemma setup_local_repo_ok_synced E replies self remote branch_arg w self' w' :
  setup_local_repo E replies self remote branch_arg w = (Ok self', w') →
  synced (fullname self) w' = true.
Proof.
  revert self w. induction replies as [|reply replies IH]; intros self w;
    cbn [setup_local_repo]; intros Hrun.
  all: apply try_except_inv in Hrun
         as [(a & Hbody & [= <-])|[(e & _ & _ & ?)|(e & w1 & _ & _ & Hrun)]];
         [by apply setup_local_repo_body_ok_synced in Hbody|done|].
  all: apply bind_inv in Hrun as [([] & w2 & _ & Hrun)|(e' & _ & ?)]; [|done].
  - done.
  - destruct reply.
    + repeat (apply bind_inv in Hrun as [([] & ? & _ & Hrun)|(? & _ & ?)]; [|done]).
      by apply IH in Hrun.
    + apply bind_inv in Hrun as [([] & ? & _ & Hrun)|(? & _ & ?)]; done.
Qed.

Lemma quietly_os_listdir P path : quietly P (os_listdir path).
Proof.
  intros w res w'. unfold os_listdir.
  destruct (stat_path w path) as [[f|]|]; intros [= _ <-]; apply quiet_refl.
Qed.

Lemma quietly_verify_branch P self : quietly P (verify_branch self).
Proof.
  unfold verify_branch. apply quietly_bind; [apply quietly_os_listdir|intros dir_names].
  destruct (bool_decide _); [apply quietly_raise|apply quietly_pass].
Qed.

(** One call of [__init__]: after the flag is updated, a sync run;
    and a call that returns has left the registry marked. *)
Lemma init_run E replies remote_url_arg branch_arg no_pull w res w' :
  let name := repo_full_name_from_remote E (default NF_CORE_MODULES_REMOTE remote_url_arg) in
  __init__ E replies remote_url_arg branch_arg no_pull w = (res, w') →
  sync_run name (Py.os_path_join (NFCORE_DIR E) name)
    (set_no_pull (no_pull_global w || no_pull) w) w'
  ∧ (∀ self, res = Ok self → synced name w' = true).
Proof.
  intros name. unfold __init__. intros Hrun.
  apply bind_inv in Hrun as [([] & w0 & [= <-] & Hrun)|(e & [=] & _)].
  apply bind_inv in Hrun as [(self1 & w1 & Hsetup & Hrun)|(e & Hsetup & ->)].
  2:{ split; [|done]. by apply (syncs_setup_local_repo E) in Hsetup. }
  pose proof (syncs_setup_local_repo E _ _ _ _ _ _ _ Hsetup) as Hsync.
  pose proof (setup_local_repo_ok_synced E _ _ _ _ _ _ _ Hsetup) as Hmarked.
  change (fullname (new_instance E (default NF_CORE_MODULES_REMOTE remote_url_arg)))
    with name in Hsync, Hmarked.
  assert (Htail : quiet is_lookup w1 w').
  { revert Hrun. generalize w1 res w'. change (quietly is_lookup (
      files ← clone_files (local_repo_dir self1);
      (let '(config_fn, repo_config) := load_tools_config E files in
       match repo_config !! "org_path" with
       | None => raise (UserWarning ("'org_path' key not present in " +:+ config_fn))
       | Some org_path =>
           let self := set_repo_path org_path self1 in
           (if negb (String.eqb (repo_path self) NF_CORE_MODULES_NAME) || truthy (branch self)
            then verify_branch self else pass);;
           mret (set_dirs
                   (Py.os_path_join (Py.os_path_join (local_repo_dir self) "modules")
                      (repo_path self))
                   (Py.os_path_join (Py.os_path_join (local_repo_dir self) "subworkflows")
                      (repo_path self))
                   self)
       end))).
    apply quietly_bind; [apply quietly_gets|intros files].
    destruct (load_tools_config E files) as [config_fn repo_config].
    destruct (repo_config !! "org_path") as [org_path|]; [|apply quietly_raise].
    apply quietly_bind; [|intros _; apply quietly_ret].
    destruct (negb (String.eqb (repo_path (set_repo_path org_path self1))
                      NF_CORE_MODULES_NAME)
              || truthy (branch (set_repo_path org_path self1)));
      [apply quietly_verify_branch|apply quietly_pass]. }
  split.
  - eapply sync_run_trans; [exact Hsync|].
    apply quiet_sync_run. eapply quiet_mono; [|exact Htail].
    cbn. intros e He. by rewrite (lookup_not_network e He).
  - intros _ _. destruct Htail as (Hs & _). by rewrite (synced_same name w1 w').
Qed.

(** C5, as the code has it.  For a call of [__init__] on the registry
    [name]: in a process that has just started the registry is not
    marked as synced; the flag that switches pulling off becomes the
    disjunction of its old value and the argument; a clone or a fetch
    that succeeds during the call leaves the registry marked, and a
    registry that becomes marked during the call has been cloned or
    fetched, or pulling is switched off; no mark is ever reset; and
    once a call has returned an instance, another call for the same
    remote fetches nothing. *)
Theorem init_sync_status E replies remote_url_arg branch_arg no_pull w res w' :
  let name := repo_full_name_from_remote E (default NF_CORE_MODULES_REMOTE remote_url_arg) in
  let path := Py.os_path_join (NFCORE_DIR E) name in
  __init__ E replies remote_url_arg branch_arg no_pull w = (res, w') →
  (local_repo_statuses w = ∅ → synced name w = false)
  ∧ no_pull_global w' = no_pull_global w || no_pull
  ∧ (∃ evs, trace w' = (trace w ++ evs)%list
       ∧ (Exists (λ e, is_sync_event path e = true) evs → synced name w' = true)
       ∧ (synced name w = false → synced name w' = true →
          Exists (λ e, is_sync_event path e = true) evs ∨ no_pull_global w' = true))
  ∧ (∀ n, synced n w = true → synced n w' = true)
  ∧ (∀ self, res = Ok self →
       ∀ replies2 branch_arg2 no_pull2 res2 w2,
         __init__ E replies2 remote_url_arg branch_arg2 no_pull2 w' = (res2, w2) →
         ∃ evs2, trace w2 = (trace w' ++ evs2)%list
                 ∧ Forall (λ e, is_fetch e = false) evs2).
Proof.
  intros name path Hrun.
  destruct (init_run E _ _ _ _ _ _ _ Hrun) as [(Hflag & evs & Ht & Hm & _ & Hs & Hl) Hok].
  fold name path in Hflag, Ht, Hm, Hs, Hl, Hok.
  split; [|split; [|split; [|split]]].
  - intros Hempty. unfold synced. by rewrite Hempty, lookup_empty.
  - exact Hflag.
  - exists evs. split; [exact Ht|]. split; [exact Hs|].
    intros H1 H2. destruct (Hl H1 H2) as [H|H]; [by left|right]. by rewrite Hflag.
  - exact Hm.
  - intros self Hself replies2 branch_arg2 no_pull2 res2 w2 Hrun2.
    destruct (init_run E _ _ _ _ _ _ _ Hrun2) as [(_ & evs2 & Ht2 & _ & Hf2 & _) _].
    exists evs2. split; [exact Ht2|]. apply Hf2. by eapply Hok.
Qed.

Lemma init_sync_status_witness :
  (local_repo_statuses Sample.fresh = ∅ → synced "nf-core/modules" Sample.fresh = false)
  ∧ no_pull_global Sample.cloned = no_pull_global Sample.fresh || false
  ∧ (∃ evs, trace Sample.cloned = (trace Sample.fresh ++ evs)%list
       ∧ (Exists (λ e, is_sync_event Sample.dir e = true) evs →
          synced "nf-core/modules" Sample.cloned = true)
       ∧ (synced "nf-core/modules" Sample.fresh = false →
          synced "nf-core/modules" Sample.cloned = true →
          Exists (λ e, is_sync_event Sample.dir e = true) evs
          ∨ no_pull_global Sample.cloned = true))
  ∧ (∀ n, synced n Sample.fresh = true → synced n Sample.cloned = true)
  ∧ (∀ self, Ok Sample.self = Ok self →
       ∀ replies2 branch_arg2 no_pull2 res2 w2,
         __init__ Sample.E replies2 None branch_arg2 no_pull2 Sample.cloned = (res2, w2) →
         ∃ evs2, trace w2 = (trace Sample.cloned ++ evs2)%list
                 ∧ Forall (λ e, is_fetch e = false) evs2).
Proof.
  apply (init_sync_status Sample.E [] None None false Sample.fresh
           (Ok Sample.self) Sample.cloned).
  vm_compute. reflexivity.
Defined.

(** C5, as the claim has it, fails.  In a process that has just
    started, with the registry in the cache from an earlier run, a
    call with [no_pull] marks the registry as synced though nothing is
    cloned or fetched: the only calls are the checkout and the
    merge. *)
Lemma init_no_pull_marks_without_sync :
  let out := __init__ Sample.E [] None None true Sample.cached in
  local_repo_statuses Sample.cached = ∅
  ∧ out.1 = Ok Sample.self
  ∧ trace out.2 = [EvCheckout Sample.dir "master"; EvMerge Sample.dir "origin/master"]
  ∧ synced "nf-core/modules" out.2 = true.
Proof. by vm_compute. Qed.

(** ** Merging the tracking branch *)

Lemma branch_exists_inv self w res w' :
  branch_exists self w = (res, w') →
  (∃ r, cache w !! local_repo_dir self = Some (Clone r)
        ∧ res = Ok tt ∧ w' = checked_out (local_repo_dir self) (branch self) r w)
  ∨ (∃ msg, res = Raise (LookupError msg)).
Proof.
  unfold branch_exists, checkout_branch. intros Hrun.
  apply try_except_inv in Hrun
    as [(a & Hc & ->)|[(e & Hc & He & ->)|(e & w1 & Hc & He & Hh)]].
  - apply git_checkout_inv in Hc as [(r & Hr & _ & _ & ->)|[=]]. left.
    exists r. by destruct a.
  - apply git_checkout_inv in Hc as [(r & _ & _ & [=] & _)|[= ->]]. done.
  - right. injection Hh as <- _. eauto.
Qed.









Lemma setup_local_repo_passes E replies self0 remote branch_arg w res w' :
  setup_local_repo_body E
    (set_local_repo_dir (Py.os_path_join (NFCORE_DIR E) (fullname self0)) self0)
    remote branch_arg w = (res, w') →
  (∀ e, res = Raise e → is_engine_error e = false) →
  setup_local_repo E replies self0 remote branch_arg w = (res, w').
Proof.
  intros Hbody Hres. destruct replies; cbn [setup_local_repo].
  all: destruct res as [a|e];
    [by apply try_except_ok|apply try_except_passed; [done|by apply Hres]].
Qed.


(** ** The statements on the sample registry *)


Lemma get_component_git_log_depth_per_layout_witness :
  cache Sample.cached !! local_repo_dir Sample.self = Some (Clone Sample.registry)
  ∧ revs Sample.registry !! branch Sample.self = Some [Sample.c_new; Sample.c_old]
  ∧ ∃ news olds w',
      get_component_git_log Sample.self "fastqc" "modules" (Some 1%nat) Sample.cached
        = (Ok (news ++ olds)%list, w')
      ∧ news = to_record <$> cap (Some 1%nat) (List.filter
                 (touches (current_path Sample.self "modules" "fastqc"))
                 [Sample.c_new; Sample.c_old])
      ∧ ("modules" = "modules" →
         olds = to_record <$> cap (Some 1%nat) (List.filter
                  (touches (legacy_path "fastqc")) [Sample.c_new; Sample.c_old]))
      ∧ ("modules" ≠ "modules" → olds = [])
      ∧ (∀ d, Some 1%nat = Some d →
           (List.length news ≤ d)%nat ∧ (List.length olds ≤ d)%nat
           ∧ (List.length (news ++ olds)%list ≤ 2 * d)%nat).
Proof.
  split; [vm_compute; reflexivity|]. split; [vm_compute; reflexivity|].
  apply (get_component_git_log_depth_per_layout Sample.self Sample.cached
           Sample.registry [Sample.c_new; Sample.c_old] "fastqc" "modules" (Some 1%nat));
    vm_compute; reflexivity.
Defined.

Lemma get_latest_component_version_first_of_depth_one_witness :
  cache Sample.cached !! local_repo_dir Sample.self = Some (Clone Sample.registry)
  ∧ revs Sample.registry !! branch Sample.self = Some [Sample.c_new; Sample.c_old]
  ∧ ∃ commits w',
      get_component_git_log Sample.self "fastqc" "subworkflows" (Some 1%nat) Sample.cached
        = (Ok commits, w')
      ∧ get_latest_component_version Sample.self "fastqc" "subworkflows" Sample.cached
        = (match commits with
           | [] => Raise IndexError
           | c :: _ => Ok (git_sha c)
           end, w')
      ∧ (commits = [] ↔
         List.filter (touches (current_path Sample.self "subworkflows" "fastqc"))
           [Sample.c_new; Sample.c_old] = []
         ∧ ("subworkflows" = "modules" →
            List.filter (touches (legacy_path "fastqc")) [Sample.c_new; Sample.c_old] = [])).
Proof.
  split; [vm_compute; reflexivity|]. split; [vm_compute; reflexivity|].
  apply (get_latest_component_version_first_of_depth_one Sample.self Sample.cached
           Sample.registry [Sample.c_new; Sample.c_old] "fastqc" "subworkflows");
    vm_compute; reflexivity.
Defined.

Lemma install_component_absent_creates_nothing_witness :
  cache Sample.cached !! local_repo_dir Sample.self = Some (Clone Sample.registry)
  ∧ is_Some (revs Sample.registry !! "1111111")
  ∧ (component_exists Sample.self "fastqc" "modules" false
       (checked_out (local_repo_dir Sample.self) "1111111" Sample.registry Sample.cached)).1
    = Ok false
  ∧ ∃ w',
      install_component Sample.self "fastqc" "/proj/modules/nf-core" "1111111" "modules"
        Sample.cached = (Ok false, w')
      ∧ project w' = project Sample.cached
      ∧ trace w' = (trace Sample.cached
                    ++ [EvCheckout (local_repo_dir Sample.self) "1111111"])%list.
Proof.
  assert (H1 : cache Sample.cached !! local_repo_dir Sample.self
               = Some (Clone Sample.registry)) by (vm_compute; reflexivity).
  assert (H2 : is_Some (revs Sample.registry !! "1111111")) by (vm_compute; eauto).
  assert (H3 : (component_exists Sample.self "fastqc" "modules" false
                  (checked_out (local_repo_dir Sample.self) "1111111"
                     Sample.registry Sample.cached)).1 = Ok false)
    by (vm_compute; reflexivity).
  split; [exact H1|]. split; [exact H2|]. split; [exact H3|].
  exact (install_component_absent_creates_nothing Sample.self Sample.cached
           Sample.registry "fastqc" "/proj/modules/nf-core" "1111111" "modules" H1 H2 H3).
Defined.



(** * Further properties *)

(** ** Commits on the branch *)

Lemma iter_commits_all path r w :
  cache w !! path = Some (Clone r) →
  iter_commits path None None w = (Ok (history r), w).
Proof.
  intros Hc. unfold iter_commits, the_repo, mbind, M_bind, mret, M_ret. by rewrite Hc.
Qed.

Lemma find_first_match (sha : string) (before : list commit) c after :
  hexsha c = sha →
  Forall (λ c', hexsha c' ≠ sha) before →
  List.find (λ c', String.eqb (hexsha c') sha) (before ++ c :: after) = Some c.
Proof.
  intros Hc Hbefore. induction Hbefore as [|c' before Hc' _ IH]; cbn.
  - by rewrite Hc, String.eqb_refl.
  - by destruct (String.eqb_spec (hexsha c') sha).
Qed.

Lemma find_no_match (sha : string) (hist : list commit) :
  Forall (λ c, hexsha c ≠ sha) hist →
  List.find (λ c, String.eqb (hexsha c) sha) hist = None.
Proof.
  intros H. induction H as [|c hist Hc _ IH]; cbn; [done|].
  by destruct (String.eqb_spec (hexsha c) sha).
Qed.

Lemma find_some_iff_elem (sha : string) (hist : list commit) :
  is_Some (List.find (λ c, String.eqb (hexsha c) sha) hist) ↔ sha ∈ hexsha <$> hist.
Proof.
  induction hist as [|c hist IH]; cbn.
  - split; [by intros [? ?]|by intros ?%elem_of_nil].
  - destruct (String.eqb_spec (hexsha c) sha) as [<-|Hne].
    + split; [intros _; apply elem_of_cons; by left|eauto].
    + rewrite IH, elem_of_cons. split; [by right|]. by intros [->|?].
Qed.

Section CommitLookup.

Context (self : ModulesRepo) (w : world) (r : repo) (hist : list commit).
Context (Hclone : cache w !! local_repo_dir self = Some (Clone r)).
Context (Hbranch : revs r !! branch self = Some hist).

Lemma sha_exists_on_branch_eq sha :
  sha_exists_on_branch self sha w = (Ok (bool_decide (sha ∈ hexsha <$> hist)), at_tip self r w).
Proof.
  unfold sha_exists_on_branch, checkout_branch.
  erewrite bind_ok; [|by apply git_checkout_ok].
  erewrite bind_ok; [|apply iter_commits_all, cache_checked_out].
  by rewrite (history_set_HEAD _ _ _ Hbranch).
Qed.

(** X1.  [sha_exists_on_branch] answers whether the hash is the hash
    of a commit in the history of the branch, so never for an empty
    history, and leaves the branch checked out. *)
Theorem sha_exists_on_branch_iff_in_history sha :
  ∃ found w',
    sha_exists_on_branch self sha w = (Ok found, w')
    ∧ (found = true ↔ ∃ c, c ∈ hist ∧ hexsha c = sha)
    ∧ (hist = [] → found = false)
    ∧ active_ref (local_repo_dir self) w' = Some (branch self).
Proof.
  eexists _, _. split; [apply sha_exists_on_branch_eq|].
  split; [|split; [|apply active_ref_checked_out]].
  - rewrite bool_decide_eq_true, list_elem_of_fmap.
    split; [intros (c & -> & Hc); eauto|intros (c & Hc & <-); eauto].
  - intros ->. by apply bool_decide_eq_false_2, not_elem_of_nil.
Qed.

Context (committed_date : commit → string).

(** X2.  [get_commit_info] returns the first line of the message and
    the date of the first commit of the history with the hash, raises
    the lookup failure that names the hash and the remote when there
    is none, and so succeeds exactly when [sha_exists_on_branch]
    answers yes. *)
Theorem get_commit_info_first_match sha :
  (∀ before c after,
     hist = (before ++ c :: after)%list → hexsha c = sha →
     Forall (λ c', hexsha c' ≠ sha) before →
     get_commit_info committed_date self sha w
       = (Ok (Py.partition_head Py.nl (message c), committed_date c), at_tip self r w))
  ∧ (Forall (λ c, hexsha c ≠ sha) hist →
     get_commit_info committed_date self sha w
       = (Raise (LookupError ("Commit '" +:+ sha +:+ "' not found in the '"
                              +:+ remote_url self +:+ "'")), at_tip self r w))
  ∧ ((∃ info, (get_commit_info committed_date self sha w).1 = Ok info)
     ↔ (sha_exists_on_branch self sha w).1 = Ok true).
Proof.
  assert (Hrun : get_commit_info committed_date self sha w =
    match List.find (λ c, String.eqb (hexsha c) sha) hist with
    | Some c => (Ok (Py.partition_head Py.nl (message c), committed_date c), at_tip self r w)
    | None => (Raise (LookupError ("Commit '" +:+ sha +:+ "' not found in the '"
                                   +:+ remote_url self +:+ "'")), at_tip self r w)
    end).
  { unfold get_commit_info, checkout_branch.
    erewrite bind_ok; [|by apply git_checkout_ok].
    erewrite bind_ok; [|apply iter_commits_all, cache_checked_out].
    rewrite (history_set_HEAD _ _ _ Hbranch). by destruct (List.find _ hist). }
  split; [|split].
  - intros before c after -> Hc Hbefore. by rewrite Hrun, find_first_match.
  - intros Hnone. by rewrite Hrun, find_no_match.
  - rewrite Hrun, sha_exists_on_branch_eq. cbn [fst].
    pose proof (find_some_iff_elem sha hist) as Hfind.
    destruct (List.find _ hist) as [c|]; cbn [fst].
    + split; [intros _|eauto]. f_equal. apply bool_decide_eq_true_2, Hfind. eauto.
    + split; [by intros [? ?]|]. intros [= Hb%bool_decide_eq_true].
      apply Hfind in Hb as [? ?]. done.
Qed.

(** X3.  [verify_sha] refuses a hash given together with the prompt
    without looking at the repository; it accepts a missing hash, and
    without the prompt an empty one, also without looking; and for a
    hash that is not empty it answers whether the hash is on the
    branch. *)
Theorem verify_sha_outcomes prompt sha :
  (prompt = true → sha ≠ None →
   verify_sha self prompt sha w
     = (Ok false, add_log ERROR "Cannot use '--sha' and '--prompt' at the same time!" w))
  ∧ (sha = None ∨ (prompt = false ∧ sha = Some "") →
     verify_sha self prompt sha w = (Ok true, w))
  ∧ (prompt = false → ∀ s, sha = Some s → s ≠ "" →
     ∃ w', verify_sha self prompt sha w = (Ok (bool_decide (s ∈ hexsha <$> hist)), w')
           ∧ active_ref (local_repo_dir self) w' = Some (branch self)).
Proof.
  split; [|split].
  - intros -> Hsha. unfold verify_sha. by rewrite bool_decide_eq_true_2.
  - intros [->|[-> ->]]; unfold verify_sha; [|done].
    rewrite bool_decide_eq_false_2 by (by intros ?). by rewrite andb_false_r.
  - intros -> s -> Hs. unfold verify_sha. cbn [andb].
    assert (Htruthy : truthy s = true).
    { unfold truthy. by destruct (String.eqb_spec s ""). }
    rewrite Htruthy. erewrite bind_ok; [|apply sha_exists_on_branch_eq].
    destruct (bool_decide (s ∈ hexsha <$> hist)); cbn [negb].
    + eexists. split; [reflexivity|]. apply active_ref_checked_out.
    + eexists. split; [reflexivity|]. apply active_ref_checked_out.
Qed.

Lemma in_cap_filter {A} (f : A → bool) depth (l : list A) x :
  x ∈ cap depth (List.filter f l) → x ∈ l ∧ f x = true.
Proof.
  intros Hin. assert (Hin' : x ∈ List.filter f l).
  { destruct depth as [d|]; [|done]. cbn in Hin.
    apply elem_of_take in Hin as (i & Hi & _). by eapply list_elem_of_lookup_2. }
  apply list_elem_of_In, filter_In in Hin' as [Hin' Hf].
  by apply list_elem_of_In in Hin'.
Qed.

Lemma log_records_in_history component_name component_type depth :
  Forall (λ record, git_sha record ∈ hexsha <$> hist)
    ((to_record <$> cap depth (List.filter
        (touches (current_path self component_type component_name)) hist)) ++
     (if String.eqb component_type "modules"
      then to_record <$> cap depth (List.filter
             (touches (legacy_path component_name)) hist)
      else []))%list.
Proof.
  apply Forall_app. split.
  - apply Forall_fmap, Forall_forall. intros c [Hc _]%in_cap_filter. cbn.
    apply list_elem_of_fmap. eauto.
  - destruct (String.eqb component_type "modules"); [|constructor].
    apply Forall_fmap, Forall_forall. intros c [Hc _]%in_cap_filter. cbn.
    apply list_elem_of_fmap. eauto.
Qed.

(** X4.  Every record that [get_component_git_log] returns is a
    commit of the branch.  For the kind modules and no depth, the log
    has as many records as there are commits that touch the current
    path plus commits that touch the superseded one: a commit that
    touches both is listed twice. *)
Theorem get_component_git_log_from_history component_name component_type depth :
  ∃ commits w',
    get_component_git_log self component_name component_type depth w = (Ok commits, w')
    ∧ Forall (λ record, git_sha record ∈ hexsha <$> hist) commits
    ∧ (component_type = "modules" → depth = None →
       List.length commits =
         (List.length (List.filter (touches (current_path self "modules" component_name)) hist)
          + List.length (List.filter (touches (legacy_path component_name)) hist))%nat)
    ∧ (component_type = "modules" → depth = None →
       ∀ c, c ∈ hist →
         touches (current_path self "modules" component_name) c = true →
         touches (legacy_path component_name) c = true →
         ∃ l1 l2 l3, commits = (l1 ++ to_record c :: l2 ++ to_record c :: l3)%list).
Proof.
  eexists _, _. split; [by apply get_component_git_log_eq|].
  split; [|split].
  - apply log_records_in_history.
  - intros -> ->. cbn [cap String.eqb Ascii.eqb Bool.eqb].
    by rewrite length_app, !length_fmap.
  - intros -> -> c Hc Hnew Hold. cbn [cap String.eqb Ascii.eqb Bool.eqb].
    assert (H1 : c ∈ List.filter (touches (current_path self "modules" component_name)) hist).
    { apply list_elem_of_In, filter_In. split; [by apply list_elem_of_In|done]. }
    assert (H2 : c ∈ List.filter (touches (legacy_path component_name)) hist).
    { apply list_elem_of_In, filter_In. split; [by apply list_elem_of_In|done]. }
    apply list_elem_of_split in H1 as (a1 & a2 & ->).
    apply list_elem_of_split in H2 as (b1 & b2 & ->).
    exists (to_record <$> a1), ((to_record <$> a2) ++ (to_record <$> b1))%list,
      (to_record <$> b2).
    rewrite !fmap_app, !fmap_cons. by rewrite <- !app_assoc.
Qed.

End CommitLookup.

(** X5.  The hash that [get_latest_component_version] returns passes
    [verify_sha]. *)
Theorem latest_version_passes_verify_sha
    self w r hist component_name component_type sha w1 :
  cache w !! local_repo_dir self = Some (Clone r) →
  revs r !! branch self = Some hist →
  get_latest_component_version self component_name component_type w = (Ok sha, w1) →
  ∃ w2, verify_sha self false (Some sha) w1 = (Ok true, w2).
Proof.
  intros Hclone Hbranch. unfold get_latest_component_version. intros Hrun.
  erewrite bind_ok in Hrun; [|by apply get_component_git_log_eq].
  pose proof (log_records_in_history self hist component_name component_type (Some 1%nat))
    as Hall.
  destruct (_ ++ _)%list as [|record commits]; [done|].
  injection Hrun as <- <-. apply Forall_cons in Hall as [Hin _].
  unfold verify_sha. cbn [andb].
  destruct (truthy (git_sha record)); [|eauto].
  erewrite bind_ok.
  2:{ apply (sha_exists_on_branch_eq self _ (set_HEAD (branch self) r) hist);
        [apply cache_checked_out|done]. }
  rewrite bool_decide_eq_true_2 by done. eauto.
Qed.

(** ** More on installing *)

Lemma shutil_copytree_inv src dst w w' :
  shutil_copytree src dst w = (Ok tt, w') →
  cache w' = cache w
  ∧ trace w' = (trace w ++ [EvCopytree src dst])%list
  ∧ stat_path (add_event (EvCopytree src dst) w) dst = None.
Proof.
  unfold shutil_copytree.
  destruct (stat_path _ src) as [[f|]|]; try discriminate.
  destruct (stat_path _ dst) as [s|] eqn:Hdst; [discriminate|].
  by intros [= <-].
Qed.

Lemma shutil_copytree_exists src dst w :
  is_Some (stat_path w dst) →
  ∃ e, shutil_copytree src dst w = (Raise e, add_event (EvCopytree src dst) w)
       ∧ (e = FileExistsError dst ∨ e = FileNotFoundError src ∨ e = NotADirectoryError src).
Proof.
  intros [s Hs]. unfold shutil_copytree.
  change (stat_path (add_event (EvCopytree src dst) w)) with (stat_path w).
  rewrite Hs. destruct (stat_path w src) as [[f|]|]; eauto.
Qed.

Lemma get_avail_components_valid_kind self component_type w names w' :
  get_avail_components self component_type false w = (Ok names, w') →
  component_type = "modules" ∨ component_type = "subworkflows".
Proof.
  unfold get_avail_components.
  destruct (String.eqb_spec component_type "modules") as [|_]; [by left|].
  destruct (String.eqb_spec component_type "subworkflows") as [|_]; [by right|].
  intros Hrun. erewrite bind_ok in Hrun; [|reflexivity]. by erewrite bind_raise in Hrun.
Qed.

Lemma component_exists_valid_kind self component_name component_type w found w' :
  component_exists self component_name component_type false w = (Ok found, w') →
  ∃ src, get_component_dir self component_name component_type = Some src.
Proof.
  unfold component_exists. intros Hrun.
  apply bind_inv in Hrun as [(names & w1 & Hnames & _)|(e & _ & [=])].
  unfold get_component_dir.
  apply get_avail_components_valid_kind in Hnames as [->| ->]; cbn; eauto.
Qed.

Section MoreInstall.

Context (self : ModulesRepo) (w : world).
Context (component_name install_dir commit component_type : string).

(** X6.  A call of [install_component] that returns success has made
    three calls, in this order: the checkout of the commit, one copy
    from the directory of the component to the destination, which did
    not exist, and the checkout of the branch, which is therefore
    active afterwards. *)
Theorem install_component_success_steps w' :
  install_component self component_name install_dir commit component_type w
    = (Ok true, w') →
  ∃ src,
    get_component_dir self component_name component_type = Some src
    ∧ trace w' = (trace w ++
                  [EvCheckout (local_repo_dir self) commit;
                   EvCopytree src (Py.os_path_join install_dir component_name);
                   EvCheckout (local_repo_dir self) (branch self)])%list
    ∧ active_ref (local_repo_dir self) w' = Some (branch self).
Proof.
  unfold install_component. intros Hrun.
  apply bind_inv in Hrun as [(checked & w1 & Hfirst & Hrun)|(e & _ & [=])].
  destruct checked; cbn [negb] in Hrun; [|by injection Hrun].
  apply try_except_inv in Hfirst
    as [(a & Hfirst & _)|[(e & _ & _ & [=])|(e & w0 & _ & _ & [=])]].
  apply bind_inv in Hfirst as [([] & w0 & Hfirst & [= <-])|(e & _ & [=])].
  apply git_checkout_inv in Hfirst as [(r & Hc & _ & _ & ->)|[=]].
  apply bind_inv in Hrun as [(found & w2 & Hfound & Hrun)|(e & _ & [=])].
  pose proof (component_exists_reads _ _ _ _ _ _ Hfound) as ->.
  destruct (component_exists_valid_kind _ _ _ _ _ _ Hfound) as (src & Hsrc).
  rewrite Hsrc in Hrun. exists src. split; [done|].
  destruct found; cbn [negb] in Hrun.
  2:{ apply bind_inv in Hrun as [([] & w3 & _ & Hrun)|(e & _ & [=])]. by injection Hrun. }
  apply bind_inv in Hrun as [([] & w3 & Hcopy & Hrun)|(e & _ & [=])].
  apply bind_inv in Hrun as [([] & w4 & Hback & Hrun)|(e & _ & [=])].
  injection Hrun as <-.
  apply shutil_copytree_inv in Hcopy as (_ & Htrace & _).
  apply git_checkout_inv in Hback as [(r' & _ & _ & _ & ->)|[=]].
  split; [|apply active_ref_checked_out].
  cbn. rewrite Htrace. subst w1. cbn. by rewrite <- !app_assoc.
Qed.

Context (r : repo) (Hclone : cache w !! local_repo_dir self = Some (Clone r)).


(** X8.  When the component exists at the commit and the destination
    exists already, [install_component] does not return: the copy
    raises, nothing is written outside the cache, and the commit stays
    checked out. *)
Theorem install_component_existing_destination :
  is_Some (revs r !! commit) →
  (component_exists self component_name component_type false
     (checked_out (local_repo_dir self) commit r w)).1 = Ok true →
  is_Some (stat_path (checked_out (local_repo_dir self) commit r w)
             (Py.os_path_join install_dir component_name)) →
  ∃ e src w',
    install_component self component_name install_dir commit component_type w
      = (Raise e, w')
    ∧ get_component_dir self component_name component_type = Some src
    ∧ (e = FileExistsError (Py.os_path_join install_dir component_name)
       ∨ e = FileNotFoundError src ∨ e = NotADirectoryError src)
    ∧ project w' = project w
    ∧ active_ref (local_repo_dir self) w' = Some commit.
Proof.
  intros Hr Hfound Hdst.
  destruct (component_exists self component_name component_type false
              (checked_out (local_repo_dir self) commit r w)) as [res w1] eqn:Hex.
  pose proof (component_exists_reads _ _ _ _ _ _ Hex) as ->.
  cbn in Hfound. subst res.
  destruct (component_exists_valid_kind _ _ _ _ _ _ Hex) as (src & Hsrc).
  destruct (shutil_copytree_exists src _ _ Hdst) as (e & Hcopy & He).
  exists e, src. eexists. split; [|split; [done|split; [done|]]].
  - unfold install_component.
    erewrite bind_ok.
    2:{ apply try_except_ok. erewrite bind_ok; [|by apply checkout_ok]. reflexivity. }
    cbn [negb]. erewrite bind_ok; [|exact Hex].
    cbn [negb]. rewrite Hsrc. by erewrite bind_raise.
  - split; [done|]. apply active_ref_checked_out.
Qed.

(** X9.  For a kind that is neither modules nor subworkflows there
    is no component directory, the catalog raises [UnboundLocalError]
    once the branch is checked out, and [install_component] raises it
    too, with the commit left checked out, where it returns failure
    for a component that is merely absent. *)
Theorem unknown_kind_raises :
  component_type ≠ "modules" → component_type ≠ "subworkflows" →
  get_component_dir self component_name component_type = None
  ∧ (is_Some (revs r !! branch self) →
     get_avail_components self component_type true w
       = (Raise UnboundLocalError, at_tip self r w))
  ∧ (is_Some (revs r !! commit) →
     install_component self component_name install_dir commit component_type w
       = (Raise UnboundLocalError, checked_out (local_repo_dir self) commit r w)).
Proof.
  intros Hm Hs.
  assert (Hm' : String.eqb component_type "modules" = false)
    by (by destruct (String.eqb_spec component_type "modules")).
  assert (Hs' : String.eqb component_type "subworkflows" = false)
    by (by destruct (String.eqb_spec component_type "subworkflows")).
  assert (Hcatalog : ∀ w0, get_avail_components self component_type false w0
                           = (Raise UnboundLocalError, w0)).
  { intros w0. unfold get_avail_components. rewrite Hm', Hs'.
    erewrite bind_ok; [|reflexivity]. by erewrite bind_raise. }
  split; [|split].
  - unfold get_component_dir. by rewrite Hm', Hs'.
  - intros Hb. unfold get_avail_components. rewrite Hm', Hs'.
    erewrite bind_ok; [|by apply git_checkout_ok]. by erewrite bind_raise.
  - intros Hr. unfold install_component.
    erewrite bind_ok.
    2:{ apply try_except_ok. erewrite bind_ok; [|by apply checkout_ok]. reflexivity. }
    cbn [negb]. erewrite bind_raise; [done|].
    unfold component_exists. by erewrite bind_raise.
Qed.

End MoreInstall.

(** ** More on comparing files *)

Section MoreDiff.

Context (self : ModulesRepo) (w : world) (r : repo).
Context (module_name base_path : string).
Context (Hclone : cache w !! local_repo_dir self = Some (Clone r)).


Context (commit : option string).
Context (Hbranch : is_Some (revs r !! branch self)).
Context (Hcommit : is_Some (revs r !! default (branch self) commit)).




End MoreDiff.

(** ** More on the branches of a remote *)

Lemma branches_step_malformed branches branch_info :
  List.length (Py.split Py.tab branch_info) ≠ 2%nat →
  branches_step branches branch_info = Raise ValueError.
Proof.
  unfold branches_step. by destruct (Py.split Py.tab branch_info) as [|? [|? [|? ?]]].
Qed.

Lemma branches_step_outcome branches branch_info :
  branches_step branches branch_info = Raise ValueError
  ∨ ∃ branches', branches_step branches branch_info = Ok branches'.
Proof.
  unfold branches_step. destruct (Py.split Py.tab branch_info) as [|? [|? [|? ?]]]; eauto.
Qed.

Lemma branches_loop_malformed lines branches :
  Exists (λ line, List.length (Py.split Py.tab line) ≠ 2%nat) lines →
  branches_loop lines branches = Raise ValueError.
Proof.
  intros Hbad. revert branches. induction Hbad as [line lines Hline|line lines _ IH];
    intros branches; cbn [branches_loop].
  - by rewrite branches_step_malformed.
  - by destruct (branches_step_outcome branches line) as [->|[b' ->]].
Qed.

(** X13.  [get_remote_branches] cannot unpack a line of the listing
    that has not exactly one tab: the call raises [ValueError],
    whatever the other lines are, and so for an empty listing, whose
    only line is empty. *)
Theorem get_remote_branches_malformed_line E remote unparsed_branches :
  ls_remote E remote = Some unparsed_branches →
  Exists (λ line, List.length (Py.split Py.tab line) ≠ 2%nat)
         (Py.split Py.nl unparsed_branches) →
  get_remote_branches E remote = Raise ValueError.
Proof.
  intros H Hbad. unfold get_remote_branches. by rewrite H, branches_loop_malformed.
Qed.

Lemma get_remote_branches_malformed_line_witness :
  get_remote_branches More.E More.slashed_url = Raise ValueError.
Proof.
  assert (H1 : ls_remote More.E More.slashed_url = Some "") by (vm_compute; reflexivity).
  assert (H2 : Exists (λ line, List.length (Py.split Py.tab line) ≠ 2%nat)
                      (Py.split Py.nl "")).
  { vm_compute. apply Exists_cons_hd. discriminate. }
  exact (get_remote_branches_malformed_line More.E More.slashed_url "" H1 H2).
Defined.

Lemma split_no_sep sep s : Forall (λ x, has_char sep x = false) (Py.split sep s).
Proof.
  induction s as [|c s IH]; cbn [Py.split]; [by repeat constructor|].
  destruct (Ascii.eqb c sep) eqn:Hc; [by constructor|].
  destruct (Py.split sep s) as [|x xs]; [by repeat constructor; cbn; rewrite Hc|].
  apply Forall_cons in IH as [Hx Hxs]. constructor; [|done]. cbn. by rewrite Hc, Hx.
Qed.

Lemma last_no_char c (l : list string) :
  Forall (λ x, has_char c x = false) l → has_char c (List.last l "") = false.
Proof.
  induction 1 as [|x l Hx Hl IH]; [done|]. destruct l as [|y l]; [done|]. exact IH.
Qed.

Lemma substring_prefix_no_char c n s :
  has_char c s = false → has_char c (String.substring 0 n s) = false.
Proof.
  revert n. induction s as [|a s IH]; intros [|n]; cbn; try done.
  intros [Ha Hs]%orb_false_elim. rewrite Ha. cbn. by apply IH.
Qed.

Lemma Path_stem_no_slash p : has_char Py.slash (Py.Path_stem p) = false.
Proof.
  assert (Hname : has_char Py.slash (Py.Path_name p) = false).
  { unfold Py.Path_name. apply last_no_char.
    apply Forall_forall. intros x [_ Hx]%list_elem_of_filter.
    revert x Hx. apply Forall_forall, split_no_sep. }
  unfold Py.Path_stem. destruct (Py.rfind Py.dot _) as [i|]; [|done].
  destruct (_ && _); [|done]. by apply substring_prefix_no_char.
Qed.

Lemma branches_loop_no_slash lines branches branches' :
  map_Forall (λ _ name, has_char Py.slash name = false) branches →
  branches_loop lines branches = Ok branches' →
  map_Forall (λ _ name, has_char Py.slash name = false) branches'.
Proof.
  revert branches. induction lines as [|line lines IH]; intros branches Hall; cbn.
  - by intros [= <-].
  - unfold branches_step. destruct (Py.split Py.tab line) as [|sha [|name [|? ?]]]; try done.
    apply IH. destruct (String.eqb name "HEAD"); [done|].
    apply map_Forall_insert_2; [apply Path_stem_no_slash|done].
Qed.

(** X14.  No name that [get_remote_branches] returns has a slash in
    it: a branch whose name has one is never reported under its
    name. *)
Theorem get_remote_branches_names_have_no_slash E remote names name :
  get_remote_branches E remote = Ok names →
  name ∈ names →
  has_char Py.slash name = false.
Proof.
  unfold get_remote_branches. destruct (ls_remote E remote) as [out|]; [|done].
  destruct (branches_loop _ ∅) as [branches|] eqn:Hloop; [|done].
  intros [= <-] Hin.
  apply elem_of_list_to_set, list_elem_of_fmap in Hin as ([sha n] & -> & Hin).
  apply elem_of_map_to_list in Hin.
  by apply (branches_loop_no_slash _ _ _ (map_Forall_empty _) Hloop sha n).
Qed.

Lemma get_remote_branches_names_have_no_slash_witness :
  get_remote_branches Sample.E NF_CORE_MODULES_REMOTE = Ok {[ "x"; "release" ]}
  ∧ "x" ∈ ({[ "x"; "release" ]} : gset string)
  ∧ has_char Py.slash "x" = false.
Proof.
  assert (H1 : get_remote_branches Sample.E NF_CORE_MODULES_REMOTE
               = Ok {[ "x"; "release" ]}) by (vm_compute; reflexivity).
  assert (H2 : "x" ∈ ({[ "x"; "release" ]} : gset string))
    by (apply elem_of_union; left; by apply elem_of_singleton).
  split; [exact H1|]. split; [exact H2|].
  exact (get_remote_branches_names_have_no_slash Sample.E NF_CORE_MODULES_REMOTE
           {[ "x"; "release" ]} "x" H1 H2).
Defined.

(** ** More on setting up the local clone *)

Lemma stat_path_cached w path :
  is_Some (cache w !! path) → is_Some (stat_path w path).
Proof.
  intros Hc. unfold stat_path. destruct (List.find _ _) as [[p f]|]; [eauto|].
  rewrite (bool_decide_eq_true_2 _ Hc), orb_true_r. eauto.
Qed.


Lemma setup_local_repo_dir_set E replies d self remote branch_arg :
  setup_local_repo E replies (set_local_repo_dir d self) remote branch_arg
  = setup_local_repo E replies self remote branch_arg.
Proof. by destruct replies. Qed.

Lemma clone_step_ok E self remote r w :
  clone_from E remote = Some r →
  clone_step E self remote w
  = (Ok tt, after_clone remote (local_repo_dir self) (fullname self) r w).
Proof. intros H. unfold clone_step, try_except. by rewrite H. Qed.

Lemma clone_step_fails E self remote w :
  clone_from E remote = None →
  clone_step E self remote w
  = (Raise (LookupError ("Failed to clone from the remote: `" +:+ remote +:+ "`")),
     add_event (EvCloneFrom remote (local_repo_dir self) false) w).
Proof. intros H. unfold clone_step, try_except. by rewrite H. Qed.

Lemma clone_failure_run E replies self0 remote branch_arg w :
  stat_path w (Py.os_path_join (NFCORE_DIR E) (fullname self0)) = None →
  clone_from E remote = None →
  setup_local_repo E replies self0 remote branch_arg w
  = (Raise (LookupError ("Failed to clone from the remote: `" +:+ remote +:+ "`")),
     add_event (EvCloneFrom remote (Py.os_path_join (NFCORE_DIR E) (fullname self0)) false) w).
Proof.
  intros Hstat Hclone. apply setup_local_repo_passes; [|by intros e [= <-]].
  unfold setup_local_repo_body.
  erewrite bind_ok by (unfold os_path_exists, gets; reflexivity).
  cbn [local_repo_dir set_local_repo_dir]. rewrite Hstat.
  rewrite bool_decide_eq_false_2 by (intros [? ?]; done). cbn [negb].
  erewrite bind_raise; [reflexivity|]. by apply clone_step_fails.
Qed.

(** X15.  When the cache directory does not exist and the clone
    fails, [setup_local_repo] raises the lookup failure that names
    the remote, whatever the user would have replied: nothing is
    asked, the registry is not marked and the cache is as it was. *)
Theorem setup_local_repo_clone_failure E replies self0 remote branch_arg w :
  stat_path w (Py.os_path_join (NFCORE_DIR E) (fullname self0)) = None →
  clone_from E remote = None →
  ∃ w', setup_local_repo E replies self0 remote branch_arg w
        = (Raise (LookupError ("Failed to clone from the remote: `" +:+ remote +:+ "`")), w')
        ∧ trace w' = (trace w ++ [EvCloneFrom remote
                                    (Py.os_path_join (NFCORE_DIR E) (fullname self0)) false])%list
        ∧ local_repo_statuses w' = local_repo_statuses w
        ∧ cache w' = cache w.
Proof.
  intros Hstat Hclone. eexists. split; [by apply clone_failure_run|]. done.
Qed.

Lemma get_default_branch_unpack_fails self r w name target :
  cache w !! local_repo_dir self = Some (Clone r) →
  List.find (λ '(name, _), String.eqb name "origin/HEAD") (refs r)
    = Some (name, Some target) →
  List.length (Py.split Py.slash target) ≠ 2%nat →
  get_default_branch self w
  = (Raise ValueError, add_event (EvRefs (local_repo_dir self)) w).
Proof.
  intros Hc Hfind Hlen. unfold get_default_branch.
  erewrite bind_ok by (unfold emit, modify; reflexivity).
  erewrite bind_ok by (unfold the_repo; cbn; rewrite Hc; reflexivity).
  rewrite Hfind. by destruct (Py.split Py.slash target) as [|? [|? [|? ?]]].
Qed.

(** X16.  A registry other than the canonical one whose default
    branch is not named by exactly two parts, as for a branch with a
    slash in its name, cannot be set up without naming a branch: after
    the clone, [setup_local_repo] raises [ValueError], whatever the
    user would have replied, and leaves the clone in the cache, marked
    as synced. *)
Theorem setup_local_repo_default_branch_not_unpacked
    E replies self0 remote r name target w :
  stat_path w (Py.os_path_join (NFCORE_DIR E) (fullname self0)) = None →
  clone_from E remote = Some r →
  String.eqb (remote_url self0) NF_CORE_MODULES_REMOTE = false →
  List.find (λ '(name, _), String.eqb name "origin/HEAD") (refs r)
    = Some (name, Some target) →
  List.length (Py.split Py.slash target) ≠ 2%nat →
  setup_local_repo E replies self0 remote None w
  = (Raise ValueError,
     add_event (EvRefs (Py.os_path_join (NFCORE_DIR E) (fullname self0)))
       (after_clone remote (Py.os_path_join (NFCORE_DIR E) (fullname self0))
          (fullname self0) r w)).
Proof.
  intros Hstat Hclone Hurl Hfind Hlen.
  apply setup_local_repo_passes; [|by intros e [= <-]].
  unfold setup_local_repo_body.
  erewrite bind_ok by (unfold os_path_exists, gets; reflexivity).
  cbn [local_repo_dir set_local_repo_dir]. rewrite Hstat.
  rewrite bool_decide_eq_false_2 by (intros [? ?]; done). cbn [negb].
  erewrite bind_ok by (by apply clone_step_ok).
  cbn [local_repo_dir fullname set_local_repo_dir].
  unfold setup_branch. cbn [remote_url set_local_repo_dir]. rewrite Hurl.
  erewrite bind_raise; [reflexivity|].
  erewrite bind_raise; [reflexivity|].
  eapply get_default_branch_unpack_fails; [|exact Hfind|exact Hlen].
  cbn. apply lookup_insert_eq.
Qed.

Lemma setup_local_repo_default_branch_not_unpacked_witness :
  setup_local_repo More.E [] (new_instance More.E More.slashed_url) More.slashed_url
    None Sample.fresh
  = (Raise ValueError,
     add_event (EvRefs (Py.os_path_join (NFCORE_DIR More.E)
                          (fullname (new_instance More.E More.slashed_url))))
       (after_clone More.slashed_url
          (Py.os_path_join (NFCORE_DIR More.E)
             (fullname (new_instance More.E More.slashed_url)))
          (fullname (new_instance More.E More.slashed_url)) More.slashed Sample.fresh)).
Proof.
  assert (H1 : stat_path Sample.fresh
                 (Py.os_path_join (NFCORE_DIR More.E)
                    (fullname (new_instance More.E More.slashed_url))) = None)
    by (vm_compute; reflexivity).
  assert (H2 : clone_from More.E More.slashed_url = Some More.slashed)
    by (vm_compute; reflexivity).
  assert (H3 : String.eqb (remote_url (new_instance More.E More.slashed_url))
                 NF_CORE_MODULES_REMOTE = false) by (vm_compute; reflexivity).
  assert (H4 : List.find (λ '(name, _), String.eqb name "origin/HEAD") (refs More.slashed)
               = Some ("origin/HEAD", Some "origin/feature/x")) by (vm_compute; reflexivity).
  assert (H5 : List.length (Py.split Py.slash "origin/feature/x") ≠ 2%nat)
    by (vm_compute; discriminate).
  exact (setup_local_repo_default_branch_not_unpacked More.E []
           (new_instance More.E More.slashed_url) More.slashed_url More.slashed
           "origin/HEAD" "origin/feature/x" Sample.fresh H1 H2 H3 H4 H5).
Defined.



Lemma setup_local_repo_clone_failure_witness :
  ∃ w', setup_local_repo Sample.E [] (new_instance Sample.E "https://example.org/gone.git")
          "https://example.org/gone.git" None Sample.fresh
        = (Raise (LookupError ("Failed to clone from the remote: `"
                               +:+ "https://example.org/gone.git" +:+ "`")), w')
        ∧ trace w' = (trace Sample.fresh
                      ++ [EvCloneFrom "https://example.org/gone.git"
                            (Py.os_path_join (NFCORE_DIR Sample.E)
                               (fullname (new_instance Sample.E
                                            "https://example.org/gone.git"))) false])%list
        ∧ local_repo_statuses w' = local_repo_statuses Sample.fresh
        ∧ cache w' = cache Sample.fresh.
Proof.
  assert (H1 : stat_path Sample.fresh
                 (Py.os_path_join (NFCORE_DIR Sample.E)
                    (fullname (new_instance Sample.E "https://example.org/gone.git")))
               = None) by (vm_compute; reflexivity).
  assert (H2 : clone_from Sample.E "https://example.org/gone.git" = None)
    by (vm_compute; reflexivity).
  exact (setup_local_repo_clone_failure Sample.E []
           (new_instance Sample.E "https://example.org/gone.git")
           "https://example.org/gone.git" None Sample.fresh H1 H2).
Defined.

(** What [setup_local_repo] does once the body of its [try] has
    raised an error of the engine. *)
Lemma setup_local_repo_caught E replies self0 remote branch_arg w e w1 :
  setup_local_repo_body E
    (set_local_repo_dir (Py.os_path_join (NFCORE_DIR E) (fullname self0)) self0)
    remote branch_arg w = (Raise e, w1) →
  is_engine_error e = true →
  setup_local_repo E replies self0 remote branch_arg w
  = match replies with
    | [] =>
        (Raise EOFError,
         add_log ERROR "[red]Could not set up local cache of modules repository:[/]" w1)
    | true :: replies' =>
        setup_local_repo E replies' self0 remote branch_arg
          (after_removal (Py.os_path_join (NFCORE_DIR E) (fullname self0)) w1)
    | false :: _ =>
        (Raise (LookupError "Exiting due to error with local modules git repo"),
         add_event (EvConfirm false)
           (add_log ERROR "[red]Could not set up local cache of modules repository:[/]" w1))
    end.
Proof.
  intros Hbody He. destruct replies as [|[] replies'].
  - cbn [setup_local_repo]. eapply try_except_caught; [exact Hbody|exact He|reflexivity].
  - cbn [setup_local_repo]. eapply try_except_caught; [exact Hbody|exact He|].
    rewrite setup_local_repo_dir_set. reflexivity.
  - cbn [setup_local_repo]. eapply try_except_caught; [exact Hbody|exact He|reflexivity].
Qed.

Lemma body_not_a_repo E self remote branch_arg w :
  cache w !! local_repo_dir self = Some NotARepo →
  setup_local_repo_body E self remote branch_arg w = (Raise InvalidGitRepositoryError, w).
Proof.
  intros Hc. unfold setup_local_repo_body.
  erewrite bind_ok by (unfold os_path_exists, gets; reflexivity).
  rewrite bool_decide_eq_true_2 by (apply stat_path_cached; eauto). cbn [negb].
  erewrite bind_raise; [reflexivity|].
  unfold open_existing. erewrite bind_raise; [reflexivity|].
  unfold git_Repo. by rewrite Hc.
Qed.

(** X18.  A cache directory that holds no repository is never
    repaired silently.  [setup_local_repo] logs the error and asks:
    on a refusal it raises the lookup failure that ends the run and
    leaves the cache as it was; on an agreement it removes the
    directory and sets up the registry again, from a cache in which
    the directory is gone, with the replies that are left; with no
    reply to read, the prompt fails. *)
Theorem setup_local_repo_not_a_repository E self0 remote branch_arg w :
  cache w !! Py.os_path_join (NFCORE_DIR E) (fullname self0) = Some NotARepo →
  (∃ w', setup_local_repo E [] self0 remote branch_arg w = (Raise EOFError, w')
         ∧ cache w' = cache w ∧ trace w' = trace w)
  ∧ (∀ replies',
     ∃ w', setup_local_repo E (false :: replies') self0 remote branch_arg w
           = (Raise (LookupError "Exiting due to error with local modules git repo"), w')
           ∧ cache w' = cache w
           ∧ trace w' = (trace w ++ [EvConfirm false])%list)
  ∧ (∀ replies',
     setup_local_repo E (true :: replies') self0 remote branch_arg w
     = setup_local_repo E replies' self0 remote branch_arg
         (after_removal (Py.os_path_join (NFCORE_DIR E) (fullname self0)) w))
  ∧ cache (after_removal (Py.os_path_join (NFCORE_DIR E) (fullname self0)) w)
      !! Py.os_path_join (NFCORE_DIR E) (fullname self0) = None.
Proof.
  intros Hc.
  assert (Hrun : ∀ replies,
            setup_local_repo E replies self0 remote branch_arg w = _)
    by (intros replies;
        exact (setup_local_repo_caught E replies self0 remote branch_arg w
                 InvalidGitRepositoryError w
                 (body_not_a_repo E
                    (set_local_repo_dir (Py.os_path_join (NFCORE_DIR E) (fullname self0))
                       self0)
                    remote branch_arg w Hc) eq_refl)).
  split; [|split; [|split]].
  - eexists. split; [exact (Hrun [])|]. done.
  - intros replies'. eexists. split; [exact (Hrun (false :: replies'))|]. done.
  - intros replies'. exact (Hrun (true :: replies')).
  - cbn. apply lookup_delete_eq.
Qed.

Lemma setup_local_repo_not_a_repository_witness :
  (∃ w', setup_local_repo Sample.E [] (new_instance Sample.E NF_CORE_MODULES_REMOTE)
           NF_CORE_MODULES_REMOTE None More.broken = (Raise EOFError, w')
         ∧ cache w' = cache More.broken ∧ trace w' = trace More.broken)
  ∧ (∀ replies',
     ∃ w', setup_local_repo Sample.E (false :: replies')
             (new_instance Sample.E NF_CORE_MODULES_REMOTE)
             NF_CORE_MODULES_REMOTE None More.broken
           = (Raise (LookupError "Exiting due to error with local modules git repo"), w')
           ∧ cache w' = cache More.broken
           ∧ trace w' = (trace More.broken ++ [EvConfirm false])%list)
  ∧ (∀ replies',
     setup_local_repo Sample.E (true :: replies')
       (new_instance Sample.E NF_CORE_MODULES_REMOTE)
       NF_CORE_MODULES_REMOTE None More.broken
     = setup_local_repo Sample.E replies' (new_instance Sample.E NF_CORE_MODULES_REMOTE)
         NF_CORE_MODULES_REMOTE None
         (after_removal
            (Py.os_path_join (NFCORE_DIR Sample.E)
               (fullname (new_instance Sample.E NF_CORE_MODULES_REMOTE))) More.broken))
  ∧ cache (after_removal
             (Py.os_path_join (NFCORE_DIR Sample.E)
                (fullname (new_instance Sample.E NF_CORE_MODULES_REMOTE))) More.broken)
      !! Py.os_path_join (NFCORE_DIR Sample.E)
           (fullname (new_instance Sample.E NF_CORE_MODULES_REMOTE)) = None.
Proof.
  assert (H1 : cache More.broken
                 !! Py.os_path_join (NFCORE_DIR Sample.E)
                      (fullname (new_instance Sample.E NF_CORE_MODULES_REMOTE))
               = Some NotARepo) by (vm_compute; reflexivity).
  exact (setup_local_repo_not_a_repository Sample.E
           (new_instance Sample.E NF_CORE_MODULES_REMOTE) NF_CORE_MODULES_REMOTE None
           More.broken H1).
Defined.

Lemma body_fetch_fails E self remote branch_arg r w :
  cache w !! local_repo_dir self = Some (Clone r) →
  synced (fullname self) w = false →
  no_pull_global w = false →
  origin_fetch E r = None →
  setup_local_repo_body E self remote branch_arg w
  = (Raise GitCommandError, add_event (EvFetch (local_repo_dir self) false) w).
Proof.
  intros Hc Hsync Hnp Hfetch. unfold setup_local_repo_body.
  erewrite bind_ok by (unfold os_path_exists, gets; reflexivity).
  rewrite bool_decide_eq_true_2 by (apply stat_path_cached; eauto). cbn [negb].
  erewrite bind_raise; [reflexivity|].
  unfold open_existing.
  erewrite bind_ok by (unfold git_Repo; rewrite Hc; reflexivity).
  erewrite bind_raise; [reflexivity|].
  unfold sync_existing.
  erewrite bind_ok by (unfold gets; reflexivity). rewrite Hnp.
  erewrite bind_ok by reflexivity.
  erewrite bind_ok by (unfold local_repo_synced, gets; reflexivity).
  fold (synced (fullname self) w). rewrite Hsync. cbn [negb].
  erewrite bind_raise; [reflexivity|].
  unfold fetch_step. rewrite Hfetch. reflexivity.
Qed.

(** X19.  When the clone is in the cache, its registry is not marked
    and pulling is not switched off, a fetch that fails makes
    [setup_local_repo] ask whether to delete the cache.  On a refusal
    the run ends with the lookup failure: the cache is as it was and
    the registry is still not marked. *)
Theorem setup_local_repo_fetch_failure_refused E replies' self0 remote branch_arg r w :
  cache w !! Py.os_path_join (NFCORE_DIR E) (fullname self0) = Some (Clone r) →
  synced (fullname self0) w = false →
  no_pull_global w = false →
  origin_fetch E r = None →
  ∃ w', setup_local_repo E (false :: replies') self0 remote branch_arg w
        = (Raise (LookupError "Exiting due to error with local modules git repo"), w')
        ∧ trace w' = (trace w ++ [EvFetch (Py.os_path_join (NFCORE_DIR E) (fullname self0))
                                    false; EvConfirm false])%list
        ∧ cache w' = cache w
        ∧ synced (fullname self0) w' = false.
Proof.
  intros Hc Hsync Hnp Hfetch. eexists. split.
  - exact (setup_local_repo_caught E (false :: replies') self0 remote branch_arg w
             GitCommandError _
             (body_fetch_fails E
                (set_local_repo_dir (Py.os_path_join (NFCORE_DIR E) (fullname self0)) self0)
                remote branch_arg r w Hc Hsync Hnp Hfetch) eq_refl).
  - split; [|split; [done|exact Hsync]]. cbn. by rewrite <- app_assoc.
Qed.

Lemma setup_local_repo_fetch_failure_refused_witness :
  ∃ w', setup_local_repo More.offline [false] (new_instance More.offline NF_CORE_MODULES_REMOTE)
          NF_CORE_MODULES_REMOTE None Sample.cached
        = (Raise (LookupError "Exiting due to error with local modules git repo"), w')
        ∧ trace w' = (trace Sample.cached
                      ++ [EvFetch (Py.os_path_join (NFCORE_DIR More.offline)
                                     (fullname (new_instance More.offline
                                                  NF_CORE_MODULES_REMOTE))) false;
                          EvConfirm false])%list
        ∧ cache w' = cache Sample.cached
        ∧ synced (fullname (new_instance More.offline NF_CORE_MODULES_REMOTE)) w' = false.
Proof.
  assert (H1 : cache Sample.cached
                 !! Py.os_path_join (NFCORE_DIR More.offline)
                      (fullname (new_instance More.offline NF_CORE_MODULES_REMOTE))
               = Some (Clone Sample.registry)) by (vm_compute; reflexivity).
  assert (H2 : synced (fullname (new_instance More.offline NF_CORE_MODULES_REMOTE))
                 Sample.cached = false) by (vm_compute; reflexivity).
  assert (H3 : no_pull_global Sample.cached = false) by reflexivity.
  assert (H4 : origin_fetch More.offline Sample.registry = None) by reflexivity.
  exact (setup_local_repo_fetch_failure_refused More.offline []
           (new_instance More.offline NF_CORE_MODULES_REMOTE) NF_CORE_MODULES_REMOTE None
           Sample.registry Sample.cached H1 H2 H3 H4).
Defined.

(** X20.  With no network, agreeing to the deletion loses the clone:
    when the fetch fails, the user agrees and the clone that follows
    fails as well, [setup_local_repo] raises the lookup failure of
    the clone, whatever replies are left, and the directory is gone
    from the cache. *)
Theorem setup_local_repo_offline_agreement_loses_clone
    E replies' self0 remote branch_arg r w :
  cache w !! Py.os_path_join (NFCORE_DIR E) (fullname self0) = Some (Clone r) →
  synced (fullname self0) w = false →
  no_pull_global w = false →
  origin_fetch E r = None →
  clone_from E remote = None →
  stat_path (set_cache (delete (Py.os_path_join (NFCORE_DIR E) (fullname self0)) (cache w)) w)
    (Py.os_path_join (NFCORE_DIR E) (fullname self0)) = None →
  ∃ w', setup_local_repo E (true :: replies') self0 remote branch_arg w
        = (Raise (LookupError ("Failed to clone from the remote: `" +:+ remote +:+ "`")), w')
        ∧ trace w'
          = (trace w ++ [EvFetch (Py.os_path_join (NFCORE_DIR E) (fullname self0)) false;
                         EvConfirm true;
                         EvRmtree (Py.os_path_join (NFCORE_DIR E) (fullname self0));
                         EvCloneFrom remote
                           (Py.os_path_join (NFCORE_DIR E) (fullname self0)) false])%list
        ∧ cache w' !! Py.os_path_join (NFCORE_DIR E) (fullname self0) = None.
Proof.
  intros Hc Hsync Hnp Hfetch Hclone Hstat. eexists. split.
  - rewrite (setup_local_repo_caught E (true :: replies') self0 remote branch_arg w
               GitCommandError _
               (body_fetch_fails E
                  (set_local_repo_dir (Py.os_path_join (NFCORE_DIR E) (fullname self0)) self0)
                  remote branch_arg r w Hc Hsync Hnp Hfetch) eq_refl).
    apply clone_failure_run; [|exact Hclone].
    rewrite <- Hstat. by apply stat_path_ext.
  - split.
    + cbn. by rewrite <- !app_assoc.
    + cbn. apply lookup_delete_eq.
Qed.

Lemma setup_local_repo_offline_agreement_loses_clone_witness :
  ∃ w', setup_local_repo More.offline [true] (new_instance More.offline NF_CORE_MODULES_REMOTE)
          NF_CORE_MODULES_REMOTE None Sample.cached
        = (Raise (LookupError ("Failed to clone from the remote: `"
                               +:+ NF_CORE_MODULES_REMOTE +:+ "`")), w')
        ∧ trace w'
          = (trace Sample.cached
             ++ [EvFetch (Py.os_path_join (NFCORE_DIR More.offline)
                            (fullname (new_instance More.offline NF_CORE_MODULES_REMOTE)))
                   false;
                 EvConfirm true;
                 EvRmtree (Py.os_path_join (NFCORE_DIR More.offline)
                             (fullname (new_instance More.offline NF_CORE_MODULES_REMOTE)));
                 EvCloneFrom NF_CORE_MODULES_REMOTE
                   (Py.os_path_join (NFCORE_DIR More.offline)
                      (fullname (new_instance More.offline NF_CORE_MODULES_REMOTE)))
                   false])%list
        ∧ cache w' !! Py.os_path_join (NFCORE_DIR More.offline)
                        (fullname (new_instance More.offline NF_CORE_MODULES_REMOTE)) = None.
Proof.
  assert (H1 : cache Sample.cached
                 !! Py.os_path_join (NFCORE_DIR More.offline)
                      (fullname (new_instance More.offline NF_CORE_MODULES_REMOTE))
               = Some (Clone Sample.registry)) by (vm_compute; reflexivity).
  assert (H2 : synced (fullname (new_instance More.offline NF_CORE_MODULES_REMOTE))
                 Sample.cached = false) by (vm_compute; reflexivity).
  assert (H3 : no_pull_global Sample.cached = false) by reflexivity.
  assert (H4 : origin_fetch More.offline Sample.registry = None) by reflexivity.
  assert (H5 : clone_from More.offline NF_CORE_MODULES_REMOTE = None) by reflexivity.
  assert (H6 : stat_path
                 (set_cache
                    (delete (Py.os_path_join (NFCORE_DIR More.offline)
                               (fullname (new_instance More.offline NF_CORE_MODULES_REMOTE)))
                       (cache Sample.cached)) Sample.cached)
                 (Py.os_path_join (NFCORE_DIR More.offline)
                    (fullname (new_instance More.offline NF_CORE_MODULES_REMOTE))) = None)
    by (vm_compute; reflexivity).
  exact (setup_local_repo_offline_agreement_loses_clone More.offline []
           (new_instance More.offline NF_CORE_MODULES_REMOTE) NF_CORE_MODULES_REMOTE None
           Sample.registry Sample.cached H1 H2 H3 H4 H5 H6).
Defined.

(** ** Nothing is deleted unasked *)

Lemma keeps_cache_refl w : keeps_cache w w.
Proof. split; [done|]. exists []. by rewrite app_nil_r. Qed.

Lemma keeps_cache_trans w1 w2 w3 :
  keeps_cache w1 w2 → keeps_cache w2 w3 → keeps_cache w1 w3.
Proof.
  intros [Hc1 (evs1 & Ht1 & Hf1)] [Hc2 (evs2 & Ht2 & Hf2)]. split; [by eauto|].
  exists (evs1 ++ evs2)%list. split; [by rewrite Ht2, Ht1, app_assoc|].
  by apply Forall_app.
Qed.

Lemma keeping_ret {A} (a : A) : keeping_cache (mret a : M A).
Proof. intros w res w' [= <- <-]. apply keeps_cache_refl. Qed.

Lemma keeping_pass : keeping_cache pass.
Proof. apply keeping_ret. Qed.

Lemma keeping_raise {A} e : keeping_cache (raise e : M A).
Proof. intros w res w' [= <- <-]. apply keeps_cache_refl. Qed.

Lemma keeping_gets {A} (f : world → A) : keeping_cache (gets f).
Proof. intros w res w' [= <- <-]. apply keeps_cache_refl. Qed.

Lemma keeping_log l msg : keeping_cache (log_ l msg).
Proof.
  intros w res w' [= <- <-]. split; [done|]. exists []. by rewrite app_nil_r.
Qed.

Lemma keeping_emit e : is_rmtree e = false → keeping_cache (emit e).
Proof.
  intros He w res w' [= <- <-]. split; [done|]. exists [e]. split; [done|].
  by constructor.
Qed.

Lemma keeping_put_repo path r : keeping_cache (put_repo path r).
Proof.
  intros w res w' [= <- <-]. split.
  - intros p Hp. cbn. destruct (decide (path = p)) as [->|Hne].
    + rewrite lookup_insert_eq. eauto.
    + by rewrite lookup_insert_ne.
  - exists []. cbn. by rewrite app_nil_r.
Qed.

Lemma keeping_update_local_repo_status name b :
  keeping_cache (update_local_repo_status name b).
Proof.
  intros w res w' [= <- <-]. split; [done|]. exists []. cbn. by rewrite app_nil_r.
Qed.

Lemma keeping_the_repo path : keeping_cache (the_repo path).
Proof.
  intros w res w'. unfold the_repo. destruct (cache w !! path) as [[]|];
    intros [= <- <-]; apply keeps_cache_refl.
Qed.

Lemma keeping_git_Repo path : keeping_cache (git_Repo path).
Proof.
  intros w res w'. unfold git_Repo. destruct (cache w !! path) as [[]|];
    intros [= <- <-]; apply keeps_cache_refl.
Qed.

Lemma keeping_bind {A B} (c : M A) (f : A → M B) :
  keeping_cache c → (∀ a, keeping_cache (f a)) → keeping_cache (c ≫= f).
Proof.
  intros Hc Hf w res w' [(a & w1 & H1 & H2)|(e & H1 & _)]%bind_inv.
  - eapply keeps_cache_trans; [exact (Hc _ _ _ H1)|exact (Hf _ _ _ _ H2)].
  - exact (Hc _ _ _ H1).
Qed.

Lemma keeping_try_except {A} (body : M A) handles handler :
  keeping_cache body → (∀ e, keeping_cache (handler e)) →
  keeping_cache (try_except body handles handler).
Proof.
  intros Hb Hh w res w'
    [(a & H1 & _)|[(e & H1 & _ & _)|(e & w1 & H1 & _ & H2)]]%try_except_inv.
  - exact (Hb _ _ _ H1).
  - exact (Hb _ _ _ H1).
  - eapply keeps_cache_trans; [exact (Hb _ _ _ H1)|exact (Hh _ _ _ _ H2)].
Qed.

Lemma keeping_git_checkout path ref : keeping_cache (git_checkout path ref).
Proof.
  unfold git_checkout. apply keeping_bind; [by apply keeping_emit|intros _].
  apply keeping_bind; [apply keeping_the_repo|intros r].
  destruct (bool_decide _); [apply keeping_put_repo|apply keeping_raise].
Qed.

Lemma keeping_branch_exists self : keeping_cache (branch_exists self).
Proof.
  unfold branch_exists. apply keeping_try_except.
  - apply keeping_git_checkout.
  - intros e. apply keeping_raise.
Qed.

Lemma keeping_get_default_branch self : keeping_cache (get_default_branch self).
Proof.
  unfold get_default_branch. apply keeping_bind; [by apply keeping_emit|intros _].
  apply keeping_bind; [apply keeping_the_repo|intros r].
  destruct (List.find _ _) as [[name [target|]]|]; try apply keeping_raise.
  destruct (Py.split Py.slash target) as [|? [|? [|? ?]]];
    first [apply keeping_raise|apply keeping_ret].
Qed.

Lemma keeping_setup_branch self branch_arg : keeping_cache (setup_branch self branch_arg).
Proof.
  unfold setup_branch. apply keeping_bind.
  - destruct branch_arg as [b|]; [apply keeping_ret|].
    destruct (String.eqb _ _); [apply keeping_ret|].
    apply keeping_bind; [apply keeping_get_default_branch|intros b; apply keeping_ret].
  - intros self1. apply keeping_bind; [apply keeping_branch_exists|intros _].
    apply keeping_ret.
Qed.

Lemma keeping_clone_step E self remote : keeping_cache (clone_step E self remote).
Proof.
  unfold clone_step. apply keeping_try_except; [|intros e; apply keeping_raise].
  destruct (clone_from E remote) as [r|].
  - apply keeping_bind; [by apply keeping_emit|intros _].
    apply keeping_bind; [apply keeping_put_repo|intros _].
    apply keeping_update_local_repo_status.
  - apply keeping_bind; [by apply keeping_emit|intros _]. apply keeping_raise.
Qed.

Lemma keeping_sync_existing E self r : keeping_cache (sync_existing E self r).
Proof.
  unfold sync_existing. apply keeping_bind; [apply keeping_gets|intros no_pull].
  apply keeping_bind.
  { destruct no_pull; [apply keeping_update_local_repo_status|apply keeping_pass]. }
  intros _. apply keeping_bind; [apply keeping_gets|intros s].
  destruct (negb s); [|apply keeping_pass].
  apply keeping_bind; [|intros _; apply keeping_update_local_repo_status].
  unfold fetch_step. destruct (origin_fetch E r) as [r'|].
  - apply keeping_bind; [by apply keeping_emit|intros _]. apply keeping_put_repo.
  - apply keeping_bind; [by apply keeping_emit|intros _]. apply keeping_raise.
Qed.

Lemma keeping_merge_tracking E self : keeping_cache (merge_tracking E self).
Proof.
  unfold merge_tracking. apply keeping_bind; [apply keeping_the_repo|intros r].
  destruct (tracking r !! HEAD r) as [name|]; [|apply keeping_raise].
  apply keeping_bind; [|intros _; apply keeping_ret].
  unfold merge_step. apply keeping_bind; [by apply keeping_emit|intros _].
  apply keeping_bind; [apply keeping_the_repo|intros r0].
  destruct (git_merge E r0 name); [apply keeping_put_repo|apply keeping_raise].
Qed.

Lemma keeping_setup_local_repo_body E self remote branch_arg :
  keeping_cache (setup_local_repo_body E self remote branch_arg).
Proof.
  unfold setup_local_repo_body. apply keeping_bind; [apply keeping_gets|intros present].
  destruct (negb present).
  - apply keeping_bind; [apply keeping_clone_step|intros _]. apply keeping_setup_branch.
  - apply keeping_bind; [|intros self1; apply keeping_merge_tracking].
    unfold open_existing. apply keeping_bind; [apply keeping_git_Repo|intros r].
    apply keeping_bind; [apply keeping_sync_existing|intros _]. apply keeping_setup_branch.
Qed.

(** X21.  [setup_local_repo] deletes nothing unless the user agrees:
    in a run in which the first reply, if one is read at all, is not
    an agreement, every directory of the cache is still there at the
    end and [shutil.rmtree] is not called, whatever the engine does
    and however the run ends. *)
Theorem setup_local_repo_keeps_cache_unless_agreed
    E replies self0 remote branch_arg w res w' :
  head replies ≠ Some true →
  setup_local_repo E replies self0 remote branch_arg w = (res, w') →
  (∀ path, is_Some (cache w !! path) → is_Some (cache w' !! path))
  ∧ ∃ evs, trace w' = (trace w ++ evs)%list ∧ Forall (λ e, is_rmtree e = false) evs.
Proof.
  intros Hhead Hrun.
  assert (Hkeep : keeping_cache (setup_local_repo E replies self0 remote branch_arg)).
  { destruct replies as [|[] replies']; [|done|]; cbn [setup_local_repo].
    - apply keeping_try_except; [apply keeping_setup_local_repo_body|intros e].
      apply keeping_bind; [apply keeping_log|intros _]. apply keeping_raise.
    - apply keeping_try_except; [apply keeping_setup_local_repo_body|intros e].
      apply keeping_bind; [apply keeping_log|intros _].
      apply keeping_bind; [by apply keeping_emit|intros _]. apply keeping_raise. }
  exact (Hkeep _ _ _ Hrun).
Qed.

Lemma setup_local_repo_keeps_cache_unless_agreed_witness :
  (∀ path, is_Some (cache Sample.cached !! path) →
           is_Some (cache (add_event (EvConfirm false)
                             (add_log ERROR
                                "[red]Could not set up local cache of modules repository:[/]"
                                (add_event (EvFetch Sample.dir false) Sample.cached)))
                      !! path))
  ∧ ∃ evs, trace (add_event (EvConfirm false)
                    (add_log ERROR
                       "[red]Could not set up local cache of modules repository:[/]"
                       (add_event (EvFetch Sample.dir false) Sample.cached)))
           = (trace Sample.cached ++ evs)%list
           ∧ Forall (λ e, is_rmtree e = false) evs.
Proof.
  assert (H1 : head [false] ≠ Some true) by discriminate.
  assert (H2 : setup_local_repo More.offline [false]
                 (new_instance More.offline NF_CORE_MODULES_REMOTE)
                 NF_CORE_MODULES_REMOTE None Sample.cached
               = (Raise (LookupError "Exiting due to error with local modules git repo"),
                  add_event (EvConfirm false)
                    (add_log ERROR
                       "[red]Could not set up local cache of modules repository:[/]"
                       (add_event (EvFetch Sample.dir false) Sample.cached)))).
  { vm_compute. reflexivity. }
  exact (setup_local_repo_keeps_cache_unless_agreed More.offline [false]
           (new_instance More.offline NF_CORE_MODULES_REMOTE) NF_CORE_MODULES_REMOTE None
           Sample.cached _ _ H1 H2).
Defined.

(** ** The handle that construction returns *)

Lemma setup_branch_ok_fields self branch_arg w self' w' :
  setup_branch self branch_arg w = (Ok self', w') →
  ∃ b r, self' = set_branch b self
         ∧ (∀ b0, branch_arg = Some b0 → b = b0)
         ∧ cache w' !! local_repo_dir self = Some (Clone r).
Proof.
  unfold setup_branch.
  intros [(self1 & w1 & H1 & H2)|(e & _ & [=])]%bind_inv.
  apply bind_inv in H2 as [(u & w2 & H2 & [= <- <-])|(e & _ & [=])].
  apply branch_exists_inv in H2 as [(r & Hc & _ & ->)|(msg & [=])].
  assert (Hself : ∃ b, self1 = set_branch b self ∧ (∀ b0, branch_arg = Some b0 → b = b0)).
  { destruct branch_arg as [b|].
    - injection H1 as <- _. exists b. split; [done|]. by intros b0 [= ->].
    - destruct (String.eqb _ _).
      + injection H1 as <- _. by exists "master".
      + apply bind_inv in H1 as [(b & w0 & _ & [= <- _])|(e & _ & [=])]. by exists b. }
  destruct Hself as (b & -> & Hb). exists b. eexists. split; [done|]. split; [done|].
  apply cache_checked_out.
Qed.

Lemma merge_tracking_ok_fields E self w self' w' :
  merge_tracking E self w = (Ok self', w') →
  self' = self ∧ ∃ r, cache w' !! local_repo_dir self = Some (Clone r).
Proof.
  unfold merge_tracking.
  intros [(r & w1 & _ & H2)|(e & _ & [=])]%bind_inv.
  destruct (tracking r !! HEAD r) as [name|]; [|done].
  apply bind_inv in H2 as [(u & w2 & H2 & [= <- <-])|(e & _ & [=])].
  split; [done|]. unfold merge_step in H2.
  apply bind_inv in H2 as [(u1 & w3 & _ & H2)|(e & _ & [=])].
  apply bind_inv in H2 as [(r0 & w4 & _ & H2)|(e & _ & [=])].
  destruct (git_merge E r0 name) as [r'|]; [|done].
  injection H2 as _ <-. exists r'. cbn. apply lookup_insert_eq.
Qed.

Lemma setup_local_repo_body_ok_fields E self remote branch_arg w self' w' :
  setup_local_repo_body E self remote branch_arg w = (Ok self', w') →
  ∃ b r, self' = set_branch b self
         ∧ (∀ b0, branch_arg = Some b0 → b = b0)
         ∧ cache w' !! local_repo_dir self = Some (Clone r).
Proof.
  unfold setup_local_repo_body.
  intros [(present & w1 & _ & H2)|(e & _ & [=])]%bind_inv.
  destruct (negb present).
  - apply bind_inv in H2 as [(u & w2 & _ & H2)|(e & _ & [=])].
    by apply setup_branch_ok_fields in H2.
  - apply bind_inv in H2 as [(self1 & w2 & H1 & H2)|(e & _ & [=])].
    apply merge_tracking_ok_fields in H2 as (-> & r & Hc).
    unfold open_existing in H1.
    apply bind_inv in H1 as [(r0 & w3 & _ & H1)|(e & _ & [=])].
    apply bind_inv in H1 as [(u & w4 & _ & H1)|(e & _ & [=])].
    apply setup_branch_ok_fields in H1 as (b & r1 & -> & Hb & _).
    by exists b, r.
Qed.

Lemma setup_local_repo_ok_fields E replies self0 remote branch_arg w self w' :
  setup_local_repo E replies self0 remote branch_arg w = (Ok self, w') →
  ∃ b r, self = set_up E b self0
         ∧ (∀ b0, branch_arg = Some b0 → b = b0)
         ∧ cache w' !! local_repo_dir self = Some (Clone r).
Proof.
  revert self0 w. induction replies as [|reply replies' IH]; intros self0 w;
    cbn [setup_local_repo];
    intros [(a & H1 & [= <-])|[(e & _ & _ & [=])|(e & w1 & _ & _ & H2)]]%try_except_inv.
  - apply setup_local_repo_body_ok_fields in H1 as (b & r & -> & Hb & Hc).
    by exists b, r.
  - apply bind_inv in H2 as [(u & w2 & _ & [=])|(e0 & _ & [=])].
  - apply setup_local_repo_body_ok_fields in H1 as (b & r & -> & Hb & Hc).
    by exists b, r.
  - apply bind_inv in H2 as [(u & w2 & _ & H2)|(e0 & _ & [=])].
    destruct reply.
    + apply bind_inv in H2 as [(u1 & w3 & _ & H2)|(e0 & _ & [=])].
      apply bind_inv in H2 as [(u2 & w4 & _ & H2)|(e0 & _ & [=])].
      apply bind_inv in H2 as [(u3 & w5 & _ & H2)|(e0 & _ & [=])].
      apply bind_inv in H2 as [(u4 & w6 & _ & H2)|(e0 & _ & [=])].
      apply IH in H2 as (b & r & -> & Hb & Hc). by exists b, r.
    + apply bind_inv in H2 as [(u1 & w3 & _ & [=])|(e0 & _ & [=])].
Qed.

Lemma verify_branch_same_world self w res w' :
  verify_branch self w = (res, w') → w' = w.
Proof.
  unfold verify_branch.
  intros [(names & w1 & H1 & H2)|(e & H1 & _)]%bind_inv.
  - assert (w1 = w) as ->.
    { unfold os_listdir in H1. destruct (stat_path w _) as [[]|]; by injection H1. }
    destruct (bool_decide _); by injection H2.
  - unfold os_listdir in H1. destruct (stat_path w _) as [[]|]; by injection H1.
Qed.

(** X22.  The handle that [__init__] returns, however the set-up
    went: it keeps the URL it was given, or the canonical one; its
    name is the name of the registry of that URL and its directory is
    that name under the cache root, so that two handles for one URL
    share one directory; a branch that was asked for is its branch;
    at the end a clone sits in that directory, and the two component
    directories are [modules] and [subworkflows] in it, followed by
    the [org_path] of the configuration. *)
Theorem init_handle_fields E replies remote_url_arg branch_arg no_pull w self w' :
  __init__ E replies remote_url_arg branch_arg no_pull w = (Ok self, w') →
  remote_url self = default NF_CORE_MODULES_REMOTE remote_url_arg
  ∧ fullname self = repo_full_name_from_remote E (remote_url self)
  ∧ local_repo_dir self = Py.os_path_join (NFCORE_DIR E) (fullname self)
  ∧ (∀ b, branch_arg = Some b → branch self = b)
  ∧ (∃ r, cache w' !! local_repo_dir self = Some (Clone r))
  ∧ modules_dir self
    = Py.os_path_join (Py.os_path_join (local_repo_dir self) "modules") (repo_path self)
  ∧ subworkflows_dir self
    = Py.os_path_join (Py.os_path_join (local_repo_dir self) "subworkflows") (repo_path self).
Proof.
  unfold __init__.
  intros [(u & w1 & _ & H2)|(e & _ & [=])]%bind_inv.
  apply bind_inv in H2 as [(self1 & w2 & H1 & H2)|(e & _ & [=])].
  apply setup_local_repo_ok_fields in H1 as (b & r & -> & Hb & Hc).
  apply bind_inv in H2 as [(files & w3 & [= _ <-] & H2)|(e & _ & [=])].
  destruct (load_tools_config E files) as [config_fn repo_config].
  destruct (repo_config !! "org_path") as [org_path|]; [|done].
  apply bind_inv in H2 as [(u1 & w4 & H3 & [= <- <-])|(e & _ & [=])].
  assert (w4 = w2) as ->.
  { destruct (_ || _); [by apply verify_branch_same_world in H3|by injection H3]. }
  cbn. repeat split; try done.
  by exists r.
Qed.

Lemma init_handle_fields_witness :
  remote_url Sample.self = default NF_CORE_MODULES_REMOTE None
  ∧ fullname Sample.self = repo_full_name_from_remote Sample.E (remote_url Sample.self)
  ∧ local_repo_dir Sample.self
    = Py.os_path_join (NFCORE_DIR Sample.E) (fullname Sample.self)
  ∧ (∀ b, Some "master" = Some b → branch Sample.self = b)
  ∧ (∃ r, cache Sample.cloned !! local_repo_dir Sample.self = Some (Clone r))
  ∧ modules_dir Sample.self
    = Py.os_path_join (Py.os_path_join (local_repo_dir Sample.self) "modules")
        (repo_path Sample.self)
  ∧ subworkflows_dir Sample.self
    = Py.os_path_join (Py.os_path_join (local_repo_dir Sample.self) "subworkflows")
        (repo_path Sample.self).
Proof.
  assert (H1 : __init__ Sample.E [] None (Some "master") false Sample.fresh
               = (Ok Sample.self, Sample.cloned)) by (vm_compute; reflexivity).
  exact (init_handle_fields Sample.E [] None (Some "master") false Sample.fresh
           Sample.self Sample.cloned H1).
Defined.

(** ** The further properties on the sample registry *)

Lemma sha_exists_on_branch_iff_in_history_witness :
  ∃ found w',
    sha_exists_on_branch Sample.self "1111111" Sample.cloned = (Ok found, w')
    ∧ (found = true ↔ ∃ c, c ∈ [Sample.c_new; Sample.c_old] ∧ hexsha c = "1111111")
    ∧ ([Sample.c_new; Sample.c_old] = [] → found = false)
    ∧ active_ref (local_repo_dir Sample.self) w' = Some (branch Sample.self).
Proof.
  assert (H1 : cache Sample.cloned !! local_repo_dir Sample.self
               = Some (Clone Sample.registry)) by (vm_compute; reflexivity).
  assert (H2 : revs Sample.registry !! branch Sample.self
               = Some [Sample.c_new; Sample.c_old]) by (vm_compute; reflexivity).
  exact (sha_exists_on_branch_iff_in_history Sample.self Sample.cloned Sample.registry
           [Sample.c_new; Sample.c_old] H1 H2 "1111111").
Defined.

Lemma get_commit_info_first_match_witness :
  get_commit_info More.committed_date Sample.self "1111111" Sample.cloned
  = (Ok (Py.partition_head Py.nl (message Sample.c_old), More.committed_date Sample.c_old),
     at_tip Sample.self Sample.registry Sample.cloned).
Proof.
  assert (H1 : cache Sample.cloned !! local_repo_dir Sample.self
               = Some (Clone Sample.registry)) by (vm_compute; reflexivity).
  assert (H2 : revs Sample.registry !! branch Sample.self
               = Some [Sample.c_new; Sample.c_old]) by (vm_compute; reflexivity).
  assert (H3 : [Sample.c_new; Sample.c_old] = ([Sample.c_new] ++ Sample.c_old :: [])%list)
    by reflexivity.
  assert (H4 : hexsha Sample.c_old = "1111111") by reflexivity.
  assert (H5 : Forall (λ c', hexsha c' ≠ "1111111") [Sample.c_new])
    by (repeat constructor; discriminate).
  exact (proj1 (get_commit_info_first_match Sample.self Sample.cloned Sample.registry
                  [Sample.c_new; Sample.c_old] H1 H2 More.committed_date "1111111")
           [Sample.c_new] Sample.c_old [] H3 H4 H5).
Defined.

Lemma verify_sha_outcomes_witness :
  ∃ w', verify_sha Sample.self false (Some "2222222") Sample.cloned
        = (Ok (bool_decide ("2222222" ∈ hexsha <$> [Sample.c_new; Sample.c_old])), w')
        ∧ active_ref (local_repo_dir Sample.self) w' = Some (branch Sample.self).
Proof.
  assert (H1 : cache Sample.cloned !! local_repo_dir Sample.self
               = Some (Clone Sample.registry)) by (vm_compute; reflexivity).
  assert (H2 : revs Sample.registry !! branch Sample.self
               = Some [Sample.c_new; Sample.c_old]) by (vm_compute; reflexivity).
  assert (H3 : "2222222" ≠ "") by discriminate.
  exact (proj2 (proj2 (verify_sha_outcomes Sample.self Sample.cloned Sample.registry
                         [Sample.c_new; Sample.c_old] H1 H2 false (Some "2222222")))
           eq_refl "2222222" eq_refl H3).
Defined.

Lemma get_component_git_log_from_history_witness :
  ∃ commits w',
    get_component_git_log Sample.self "fastqc" "modules" None Sample.cloned
      = (Ok commits, w')
    ∧ Forall (λ record, git_sha record ∈ hexsha <$> [Sample.c_new; Sample.c_old]) commits
    ∧ ("modules" = "modules" → @None nat = None →
       List.length commits =
         (List.length (List.filter (touches (current_path Sample.self "modules" "fastqc"))
                         [Sample.c_new; Sample.c_old])
          + List.length (List.filter (touches (legacy_path "fastqc"))
                           [Sample.c_new; Sample.c_old]))%nat)
    ∧ ("modules" = "modules" → @None nat = None →
       ∀ c, c ∈ [Sample.c_new; Sample.c_old] →
         touches (current_path Sample.self "modules" "fastqc") c = true →
         touches (legacy_path "fastqc") c = true →
         ∃ l1 l2 l3, commits = (l1 ++ to_record c :: l2 ++ to_record c :: l3)%list).
Proof.
  assert (H1 : cache Sample.cloned !! local_repo_dir Sample.self
               = Some (Clone Sample.registry)) by (vm_compute; reflexivity).
  assert (H2 : revs Sample.registry !! branch Sample.self
               = Some [Sample.c_new; Sample.c_old]) by (vm_compute; reflexivity).
  exact (get_component_git_log_from_history Sample.self Sample.cloned Sample.registry
           [Sample.c_new; Sample.c_old] H1 H2 "fastqc" "modules" None).
Defined.

Lemma latest_version_passes_verify_sha_witness :
  ∃ w2, verify_sha Sample.self false (Some "2222222")
          (at_tip Sample.self Sample.registry Sample.cloned) = (Ok true, w2).
Proof.
  assert (H1 : cache Sample.cloned !! local_repo_dir Sample.self
               = Some (Clone Sample.registry)) by (vm_compute; reflexivity).
  assert (H2 : revs Sample.registry !! branch Sample.self
               = Some [Sample.c_new; Sample.c_old]) by (vm_compute; reflexivity).
  assert (H3 : get_latest_component_version Sample.self "fastqc" "modules" Sample.cloned
               = (Ok "2222222", at_tip Sample.self Sample.registry Sample.cloned))
    by (vm_compute; reflexivity).
  exact (latest_version_passes_verify_sha Sample.self Sample.cloned Sample.registry
           [Sample.c_new; Sample.c_old] "fastqc" "modules" "2222222" _ H1 H2 H3).
Defined.

Lemma install_component_success_steps_witness :
  ∃ src,
    get_component_dir Sample.self "fastqc" "modules" = Some src
    ∧ trace (install_component Sample.self "fastqc" "/proj/modules/nf-core" "2222222"
               "modules" Sample.cached).2
      = (trace Sample.cached ++
           [EvCheckout (local_repo_dir Sample.self) "2222222";
            EvCopytree src (Py.os_path_join "/proj/modules/nf-core" "fastqc");
            EvCheckout (local_repo_dir Sample.self) (branch Sample.self)])%list
    ∧ active_ref (local_repo_dir Sample.self)
        (install_component Sample.self "fastqc" "/proj/modules/nf-core" "2222222"
           "modules" Sample.cached).2
      = Some (branch Sample.self).
Proof.
  assert (H1 : install_component Sample.self "fastqc" "/proj/modules/nf-core" "2222222"
                 "modules" Sample.cached
               = (Ok true,
                  (install_component Sample.self "fastqc" "/proj/modules/nf-core"
                     "2222222" "modules" Sample.cached).2))
    by (vm_compute; reflexivity).
  exact (install_component_success_steps Sample.self Sample.cached "fastqc"
           "/proj/modules/nf-core" "2222222" "modules" _ H1).
Defined.


Lemma install_component_existing_destination_witness :
  ∃ e src w',
    install_component Sample.self "fastqc" "/proj/modules/nf-core" "2222222" "modules"
      Sample.pipeline = (Raise e, w')
    ∧ get_component_dir Sample.self "fastqc" "modules" = Some src
    ∧ (e = FileExistsError (Py.os_path_join "/proj/modules/nf-core" "fastqc")
       ∨ e = FileNotFoundError src ∨ e = NotADirectoryError src)
    ∧ project w' = project Sample.pipeline
    ∧ active_ref (local_repo_dir Sample.self) w' = Some "2222222".
Proof.
  assert (H1 : cache Sample.pipeline !! local_repo_dir Sample.self
               = Some (Clone Sample.registry)) by (vm_compute; reflexivity).
  assert (H2 : is_Some (revs Sample.registry !! "2222222")) by (vm_compute; eauto).
  assert (H3 : (component_exists Sample.self "fastqc" "modules" false
                  (checked_out (local_repo_dir Sample.self) "2222222"
                     Sample.registry Sample.pipeline)).1 = Ok true)
    by (vm_compute; reflexivity).
  assert (H4 : is_Some (stat_path
                          (checked_out (local_repo_dir Sample.self) "2222222"
                             Sample.registry Sample.pipeline)
                          (Py.os_path_join "/proj/modules/nf-core" "fastqc")))
    by (vm_compute; eauto).
  exact (install_component_existing_destination Sample.self Sample.pipeline "fastqc"
           "/proj/modules/nf-core" "2222222" "modules" Sample.registry H1 H2 H3 H4).
Defined.

Lemma unknown_kind_raises_witness :
  install_component Sample.self "fastqc" "/proj/modules/nf-core" "2222222" "workflows"
    Sample.cached
  = (Raise UnboundLocalError,
     checked_out (local_repo_dir Sample.self) "2222222" Sample.registry Sample.cached).
Proof.
  assert (H1 : cache Sample.cached !! local_repo_dir Sample.self
               = Some (Clone Sample.registry)) by (vm_compute; reflexivity).
  assert (H2 : "workflows" ≠ "modules") by discriminate.
  assert (H3 : "workflows" ≠ "subworkflows") by discriminate.
  assert (H4 : is_Some (revs Sample.registry !! "2222222")) by (vm_compute; eauto).
  exact (proj2 (proj2 (unknown_kind_raises Sample.self Sample.cached "fastqc"
                         "/proj/modules/nf-core" "2222222" "workflows" Sample.registry
                         H1 H2 H3)) H4).
Defined.



